(** * Product team board: the synchronisation hub of [server.js]

    A shallow embedding of the WebSocket message handler of [server.js]
    (the document store [readData]/[writeData], [broadcast], the
    ['connection'] and ['message'] callbacks) and theorems about it. *)

From Stdlib Require Import ZArith String List Bool Lia.
From stdpp Require Import base list.
Import ListNotations.
Local Open Scope string_scope.
Local Open Scope list_scope.

(** ** JavaScript values

    Everything the handler touches is the result of [JSON.parse], or
    [undefined] (the value of a missing property).  Numbers are kept as
    integers: the program only copies numbers and compares them with
    [===].  Objects are association lists in insertion order, one entry
    per key. *)

#[warnings="-register-all"]
Inductive value : Type :=
| JUndef
| JNull
| JBool (b : bool)
| JNum (n : Z)
| JStr (s : string)
| JArr (items : list value)
| JObj (fields : list (string * value)).

Inductive Exn := SyntaxError | TypeError | IOError.

(** Result of evaluating an expression that may throw. *)
Inductive Res (A : Type) : Type :=
| Ok (a : A)
| Throw (e : Exn).
Arguments Ok {A} a.
Arguments Throw {A} e.

Definition rbind {A B} (r : Res A) (k : A -> Res B) : Res B :=
  match r with
  | Ok a => k a
  | Throw e => Throw e
  end.

Notation "'let?' x := r 'in' k" := (rbind r (fun x => k))
  (at level 10, x name, r at level 100, k at level 200).

Module Js.

(** Own property of an object literal. *)
Fixpoint own (k : string) (fs : list (string * value)) : option value :=
  match fs with
  | [] => None
  | (k', v) :: fs' => if String.eqb k k' then Some v else own k fs'
  end.

(** [v.k] for the property names the program reads ([type], [payload],
    [id], [taskId], [status], [comment], [comments], [name]): a
    [TypeError] on [null] and [undefined], the own property of an object,
    [undefined] on every other value. *)
Definition prop (v : value) (k : string) : Res value :=
  match v with
  | JUndef | JNull => Throw TypeError
  | JObj fs => Ok (default JUndef (own k fs))
  | _ => Ok JUndef
  end.

(** [a === b] for two values held at different places (a stored value
    against a freshly parsed one): primitives by value, while two arrays
    or two objects are different references and never equal. *)
Definition strict_eq (a b : value) : bool :=
  match a, b with
  | JUndef, JUndef => true
  | JNull, JNull => true
  | JBool x, JBool y => Bool.eqb x y
  | JNum x, JNum y => Z.eqb x y
  | JStr x, JStr y => String.eqb x y
  | _, _ => false
  end.

(** Write of an own property: an existing key keeps its place, a new key
    goes last. *)
Fixpoint put (k : string) (v : value) (fs : list (string * value))
  : list (string * value) :=
  match fs with
  | [] => [(k, v)]
  | (k', v') :: fs' =>
      if String.eqb k k' then (k, v) :: fs' else (k', v') :: put k v fs'
  end.

(** [t.k = v] in sloppy mode (the file has no ['use strict']): a
    [TypeError] on [null] and [undefined]; silently ignored on a
    primitive; on an array it creates a non-index property, which no
    read of the program and no [JSON.stringify] ever sees. *)
Definition assign (t : value) (k : string) (v : value) : Res value :=
  match t with
  | JUndef | JNull => Throw TypeError
  | JObj fs => Ok (JObj (put k v fs))
  | _ => Ok t
  end.

(** [l[i]]. *)
Definition index (l : list value) (i : nat) : value :=
  default JUndef (l !! i).

(** [l.findIndex(f)]; [None] stands for [-1].  The callback runs on the
    elements in order until it answers [true] or throws. *)
Fixpoint findIndex (f : value -> Res bool) (l : list value)
  : Res (option nat) :=
  match l with
  | [] => Ok None
  | x :: l' =>
      let? hit := f x in
      if hit then Ok (Some 0)
      else let? r := findIndex f l' in Ok (option_map S r)
  end.

(** [l.filter(f)]: the callback runs on every element. *)
Fixpoint filter (f : value -> Res bool) (l : list value)
  : Res (list value) :=
  match l with
  | [] => Ok []
  | x :: l' =>
      let? keep := f x in
      let? r := filter f l' in
      Ok (if keep then x :: r else r)
  end.

(** [c.push(x)] where [c] was read from a property: only an array has a
    [push] method; on [null]/[undefined] the read of [push] throws, on
    any other value the call of a non-function throws. *)
Definition push (c : value) (x : value) : Res value :=
  match c with
  | JArr items => Ok (JArr (items ++ [x]))
  | _ => Throw TypeError
  end.

(** The JSON document [JSON.stringify] writes for a value: inside an
    array [undefined] becomes [null], inside an object a property whose
    value is [undefined] is left out. *)
Fixpoint to_json (v : value) : value :=
  match v with
  | JArr items =>
      JArr (map (fun x => match x with JUndef => JNull | _ => to_json x end)
                items)
  | JObj fields =>
      JObj ((fix go (fs : list (string * value)) :=
               match fs with
               | [] => []
               | (k, x) :: fs' =>
                   match x with
                   | JUndef => go fs'
                   | _ => (k, to_json x) :: go fs'
                   end
               end) fields)
  | _ => v
  end.

End Js.

(** The text handed to a socket or to the file is represented by the JSON
    document it spells. *)
Definition JSON_stringify (v : value) : value := Js.to_json v.

(** An inbound frame: text that is not JSON, or the document it spells. *)
Inductive Raw :=
| NotJson
| Json (v : value).

Definition JSON_parse (message : Raw) : Res value :=
  match message with
  | NotJson => Throw SyntaxError
  | Json v => Ok v
  end.

(** ** The board, the sockets, the file *)

Record Board := mkBoard { tasks : list value; teamMembers : list value }.

Definition empty_board : Board := {| tasks := []; teamMembers := [] |}.

Definition board_value (b : Board) : value :=
  JObj [("tasks", JArr (tasks b)); ("teamMembers", JArr (teamMembers b))].

Definition elem_json (x : value) : value :=
  match x with JUndef => JNull | _ => Js.to_json x end.

(** What [JSON.stringify(data, null, 2)] stores for a board. *)
Definition json_board (b : Board) : Board :=
  {| tasks := map elem_json (tasks b);
     teamMembers := map elem_json (teamMembers b) |}.

Inductive ReadyState := CONNECTING | OPEN | CLOSING | CLOSED.

Definition is_open (s : ReadyState) : bool :=
  match s with OPEN => true | _ => false end.

(** [board-data.json]: [file = None] when the file is missing or does not
    parse; only board-shaped documents are considered.  [write_calls]
    counts the calls of [fs.writeFileSync]. *)
Record Disk := mkDisk {
  file : option Board;
  writable : bool;
  write_calls : nat
}.

(** The process: the module variable [inMemoryData], the file, the set
    [wss.clients] (in insertion order), the state of every socket, and
    every frame handed to a socket so far, oldest first. *)
Record World := mkWorld {
  inMemoryData : option Board;
  disk : Disk;
  clients : list nat;
  readyState : nat -> ReadyState;
  outbox : list (nat * value)
}.

Definition set_data (d : option Board) (w : World) : World :=
  {| inMemoryData := d; disk := disk w; clients := clients w;
     readyState := readyState w; outbox := outbox w |}.

Definition set_disk (d : Disk) (w : World) : World :=
  {| inMemoryData := inMemoryData w; disk := d; clients := clients w;
     readyState := readyState w; outbox := outbox w |}.

Definition set_outbox (o : list (nat * value)) (w : World) : World :=
  {| inMemoryData := inMemoryData w; disk := disk w; clients := clients w;
     readyState := readyState w; outbox := o |}.

(** ** Statements: state and exceptions *)

Definition M (A : Type) : Type := World -> Res A * World.

Definition ret {A} (a : A) : M A := fun w => (Ok a, w).

Definition bind {A B} (m : M A) (k : A -> M B) : M B :=
  fun w =>
    match m w with
    | (Ok a, w') => k a w'
    | (Throw e, w') => (Throw e, w')
    end.

Definition lift {A} (r : Res A) : M A := fun w => (r, w).

(** [try { m } catch (error) { h error }]: what [m] did to the state
    before it threw stays done. *)
Definition try_catch {A} (m : M A) (h : Exn -> M A) : M A :=
  fun w =>
    match m w with
    | (Ok a, w') => (Ok a, w')
    | (Throw e, w') => h e w'
    end.

Declare Scope js_scope.
Delimit Scope js_scope with js.
Notation "x <- m ;; k" := (bind m (fun x => k))
  (at level 100, m at next level, right associativity) : js_scope.
Notation "m ;; k" := (bind m (fun _ => k))
  (at level 100, right associativity) : js_scope.
Local Open Scope js_scope.

Fixpoint forEach {A} (l : list A) (f : A -> M unit) : M unit :=
  match l with
  | [] => ret tt
  | x :: l' => f x ;; forEach l' f
  end.

(** ** Document store *)

Definition get_data : M (option Board) := fun w => (Ok (inMemoryData w), w).
Definition put_data (d : option Board) : M unit :=
  fun w => (Ok tt, set_data d w).

(** [fs.readFileSync] followed by [JSON.parse]. *)
Definition read_file : M Board :=
  fun w =>
    match file (disk w) with
    | Some b => (Ok b, w)
    | None => (Throw IOError, w)
    end.

(** [fs.writeFileSync(DATA_FILE, text)]. *)
Definition fs_writeFileSync (text : Board) : M unit :=
  fun w =>
    let d := disk w in
    if writable d
    then (Ok tt, set_disk {| file := Some text; writable := true;
                             write_calls := S (write_calls d) |} w)
    else (Throw IOError,
          set_disk {| file := file d; writable := false;
                      write_calls := S (write_calls d) |} w).

(** [initDataFile]: the file when it exists and parses, else the empty
    board, which is then written out if the file system allows it. *)
Definition initDataFile : M unit :=
  loaded <- try_catch (fileData <- read_file ;;
                       put_data (Some fileData) ;;
                       ret true)
                      (fun _ => ret false) ;;
  if loaded then ret tt
  else
    put_data (Some empty_board) ;;
    try_catch (fs_writeFileSync (json_board empty_board))
              (fun _ => ret tt).

(** [readData]: the resident board, with the file and then the empty
    board as fallbacks while [inMemoryData] is still [null]. *)
Definition readData : M Board :=
  cur <- get_data ;;
  match cur with
  | Some b => ret b
  | None =>
      try_catch (data <- read_file ;;
                 put_data (Some data) ;;
                 ret data)
                (fun _ => put_data (Some empty_board) ;; ret empty_board)
  end.

(** [writeData]: the failed write is caught here and goes no further. *)
Definition writeData (data : Board) : M unit :=
  put_data (Some data) ;;
  try_catch (fs_writeFileSync (json_board data)) (fun _ => ret tt).

(** The local [data] of the message callback is a reference to the object
    [inMemoryData] points to: [deref] reads that object as it is now,
    [mutate] changes it in place. *)
Definition deref : M Board :=
  cur <- get_data ;;
  match cur with
  | Some b => ret b
  | None => lift (Throw TypeError)
  end.

Definition mutate (f : Board -> Board) : M unit :=
  data <- deref ;; put_data (Some (f data)).

Definition set_tasks (l : list value) (b : Board) : Board :=
  {| tasks := l; teamMembers := teamMembers b |}.

Definition set_teamMembers (l : list value) (b : Board) : Board :=
  {| tasks := tasks b; teamMembers := l |}.

(** ** Sockets *)

(** [ws.send(text)]: a socket that is not open delivers nothing (recent
    versions of the [ws] package drop the frame, older ones throw, which
    the callback's [catch] absorbs at its last statement). *)
Definition ws_send (ws : nat) (text : value) : M unit :=
  fun w =>
    if is_open (readyState w ws)
    then (Ok tt, set_outbox (outbox w ++ [(ws, text)]) w)
    else (Ok tt, w).

Definition differs (client : nat) (excludeWs : option nat) : bool :=
  match excludeWs with
  | None => true
  | Some e => negb (Nat.eqb client e)
  end.

(** [broadcast(message, excludeWs = null)] *)
Definition broadcast (message : value) (excludeWs : option nat) : M unit :=
  fun w =>
    forEach (clients w)
      (fun client w' =>
         if differs client excludeWs && is_open (readyState w' client)
         then ws_send client (JSON_stringify message) w'
         else (Ok tt, w'))
      w.

(** ** Protocol *)

Definition envelope (type : string) (payload : value) : value :=
  JObj [("type", JStr type); ("payload", payload)].

Inductive Kind :=
| ADD_TASK | UPDATE_TASK | DELETE_TASK | MOVE_TASK
| ADD_COMMENT | UPDATE_TEAM_MEMBER | USER_ACTIVITY.

Definition kinds : list Kind :=
  [ADD_TASK; UPDATE_TASK; DELETE_TASK; MOVE_TASK;
   ADD_COMMENT; UPDATE_TEAM_MEMBER; USER_ACTIVITY].

Definition label (k : Kind) : string :=
  match k with
  | ADD_TASK => "ADD_TASK"
  | UPDATE_TASK => "UPDATE_TASK"
  | DELETE_TASK => "DELETE_TASK"
  | MOVE_TASK => "MOVE_TASK"
  | ADD_COMMENT => "ADD_COMMENT"
  | UPDATE_TEAM_MEMBER => "UPDATE_TEAM_MEMBER"
  | USER_ACTIVITY => "USER_ACTIVITY"
  end.

(** [switch (tag)]: the first [case] whose label is [===] to the tag. *)
Definition switch (tag : value) : option Kind :=
  List.find (fun k => Js.strict_eq tag (JStr (label k))) kinds.

(** The callback [x => x.key === msg.payload.field]. *)
Definition same_key (key : string) (msg : value) (field : string)
  (x : value) : Res bool :=
  let? a := Js.prop x key in
  let? payload := Js.prop msg "payload" in
  let? b := Js.prop payload field in
  Ok (Js.strict_eq a b).

Definition other_key (key : string) (msg : value) (field : string)
  (x : value) : Res bool :=
  let? same := same_key key msg field x in Ok (negb same).

(** [writeData(data); broadcast(event); ws.send(JSON.stringify(event))] *)
Definition commit (ws : nat) (event : value) : M unit :=
  data <- deref ;;
  writeData data ;;
  broadcast event None ;;
  ws_send ws (JSON_stringify event).

(** The body of the [switch], one branch per [case]. *)
Definition dispatch (ws : nat) (msg : value) (data : Board) (k : Kind)
  : M unit :=
  match k with
  | ADD_TASK =>
      payload <- lift (Js.prop msg "payload") ;;
      mutate (fun d => set_tasks (tasks d ++ [payload]) d) ;;
      commit ws (envelope "TASK_ADDED" payload)
  | UPDATE_TASK =>
      taskIndex <- lift (Js.findIndex (same_key "id" msg "id") (tasks data)) ;;
      match taskIndex with
      | Some i =>
          payload <- lift (Js.prop msg "payload") ;;
          mutate (fun d => set_tasks (<[i := payload]> (tasks d)) d) ;;
          commit ws (envelope "TASK_UPDATED" payload)
      | None => ret tt
      end
  | DELETE_TASK =>
      kept <- lift (Js.filter (other_key "id" msg "id") (tasks data)) ;;
      mutate (set_tasks kept) ;;
      payload <- lift (Js.prop msg "payload") ;;
      commit ws (envelope "TASK_DELETED" payload)
  | MOVE_TASK =>
      moveIndex <- lift (Js.findIndex (same_key "id" msg "id") (tasks data)) ;;
      match moveIndex with
      | Some i =>
          payload <- lift (Js.prop msg "payload") ;;
          status <- lift (Js.prop payload "status") ;;
          moved <- lift (Js.assign (Js.index (tasks data) i) "status" status) ;;
          mutate (fun d => set_tasks (<[i := moved]> (tasks d)) d) ;;
          commit ws (envelope "TASK_MOVED" payload)
      | None => ret tt
      end
  | ADD_COMMENT =>
      commentTaskIndex <-
        lift (Js.findIndex (same_key "id" msg "taskId") (tasks data)) ;;
      match commentTaskIndex with
      | Some i =>
          let task := Js.index (tasks data) i in
          comments <- lift (Js.prop task "comments") ;;
          payload <- lift (Js.prop msg "payload") ;;
          comment <- lift (Js.prop payload "comment") ;;
          pushed <- lift (Js.push comments comment) ;;
          commented <- lift (Js.assign task "comments" pushed) ;;
          mutate (fun d => set_tasks (<[i := commented]> (tasks d)) d) ;;
          commit ws (envelope "COMMENT_ADDED" payload)
      | None => ret tt
      end
  | UPDATE_TEAM_MEMBER =>
      memberIndex <-
        lift (Js.findIndex (same_key "name" msg "name") (teamMembers data)) ;;
      payload <- lift (Js.prop msg "payload") ;;
      match memberIndex with
      | None =>
          mutate (fun d => set_teamMembers (teamMembers d ++ [payload]) d)
      | Some i =>
          mutate (fun d => set_teamMembers (<[i := payload]> (teamMembers d)) d)
      end ;;
      data' <- deref ;;
      commit ws (envelope "TEAM_UPDATED" (JArr (teamMembers data')))
  | USER_ACTIVITY =>
      payload <- lift (Js.prop msg "payload") ;;
      broadcast (envelope "USER_ACTIVITY" payload) (Some ws)
  end.

(** [ws.on('message', ...)] *)
Definition on_message (ws : nat) (message : Raw) : M unit :=
  try_catch
    (msg <- lift (JSON_parse message) ;;
     data <- readData ;;
     tag <- lift (Js.prop msg "type") ;;
     match switch tag with
     | Some k => dispatch ws msg data k
     | None => ret tt
     end)
    (fun _ => ret tt).

(** What the [ws] package does before it emits ['connection']: the socket
    joins [wss.clients] and is open. *)
Definition wss_accept (ws : nat) : M unit :=
  fun w =>
    (Ok tt,
     {| inMemoryData := inMemoryData w; disk := disk w;
        clients := clients w ++ [ws];
        readyState := fun c => if Nat.eqb c ws then OPEN else readyState w c;
        outbox := outbox w |}).

(** [wss.on('connection', ...)], up to the registration of the callbacks. *)
Definition on_connection (ws : nat) : M unit :=
  data <- readData ;;
  ws_send ws (JSON_stringify (envelope "INIT" (board_value data))).

Definition connect (ws : nat) : M unit :=
  wss_accept ws ;; on_connection ws.

(** The state a statement leaves behind. *)
Definition exec {A} (m : M A) (w : World) : World := snd (m w).

(** A run of the event loop over a queue of inbound frames. *)
Definition replay (queue : list (nat * Raw)) : M unit :=
  forEach queue (fun '(ws, message) => on_message ws message).

(** ** The handler as a function of the board

    In every [case] each expression that can throw comes before the first
    write to [data], so a case either leaves the store alone or reaches
    [writeData], [broadcast] and [ws.send] with a new board and an event.
    [route] computes that outcome; [on_message_run] below proves that the
    callback does exactly this. *)

Inductive Outcome :=
| Commit (data : Board) (event : value)
| Relay (event : value)
| Nothing.

Definition route (k : Kind) (msg : value) (data : Board) : Res Outcome :=
  match k with
  | ADD_TASK =>
      let? payload := Js.prop msg "payload" in
      Ok (Commit (set_tasks (tasks data ++ [payload]) data)
                 (envelope "TASK_ADDED" payload))
  | UPDATE_TASK =>
      let? taskIndex := Js.findIndex (same_key "id" msg "id") (tasks data) in
      match taskIndex with
      | Some i =>
          let? payload := Js.prop msg "payload" in
          Ok (Commit (set_tasks (<[i := payload]> (tasks data)) data)
                     (envelope "TASK_UPDATED" payload))
      | None => Ok Nothing
      end
  | DELETE_TASK =>
      let? kept := Js.filter (other_key "id" msg "id") (tasks data) in
      let? payload := Js.prop msg "payload" in
      Ok (Commit (set_tasks kept data) (envelope "TASK_DELETED" payload))
  | MOVE_TASK =>
      let? moveIndex := Js.findIndex (same_key "id" msg "id") (tasks data) in
      match moveIndex with
      | Some i =>
          let? payload := Js.prop msg "payload" in
          let? status := Js.prop payload "status" in
          let? moved := Js.assign (Js.index (tasks data) i) "status" status in
          Ok (Commit (set_tasks (<[i := moved]> (tasks data)) data)
                     (envelope "TASK_MOVED" payload))
      | None => Ok Nothing
      end
  | ADD_COMMENT =>
      let? commentTaskIndex :=
        Js.findIndex (same_key "id" msg "taskId") (tasks data) in
      match commentTaskIndex with
      | Some i =>
          let task := Js.index (tasks data) i in
          let? comments := Js.prop task "comments" in
          let? payload := Js.prop msg "payload" in
          let? comment := Js.prop payload "comment" in
          let? pushed := Js.push comments comment in
          let? commented := Js.assign task "comments" pushed in
          Ok (Commit (set_tasks (<[i := commented]> (tasks data)) data)
                     (envelope "COMMENT_ADDED" payload))
      | None => Ok Nothing
      end
  | UPDATE_TEAM_MEMBER =>
      let? memberIndex :=
        Js.findIndex (same_key "name" msg "name") (teamMembers data) in
      let? payload := Js.prop msg "payload" in
      let members :=
        match memberIndex with
        | None => teamMembers data ++ [payload]
        | Some i => <[i := payload]> (teamMembers data)
        end in
      Ok (Commit (set_teamMembers members data)
                 (envelope "TEAM_UPDATED" (JArr members)))
  | USER_ACTIVITY =>
      let? payload := Js.prop msg "payload" in
      Ok (Relay (envelope "USER_ACTIVITY" payload))
  end.

Definition interpret (message : Raw) (data : Board) : Res Outcome :=
  let? msg := JSON_parse message in
  let? tag := Js.prop msg "type" in
  match switch tag with
  | Some k => route k msg data
  | None => Ok Nothing
  end.

(** The frames one [broadcast] hands out, in the order of [wss.clients]. *)
Definition fanout (w : World) (excludeWs : option nat) (text : value)
  : list (nat * value) :=
  map (fun c => (c, text))
      (List.filter (fun c => differs c excludeWs && is_open (readyState w c))
                   (clients w)).

(** The frame of the direct [ws.send]. *)
Definition echo (w : World) (ws : nat) (text : value) : list (nat * value) :=
  if is_open (readyState w ws) then [(ws, text)] else [].

(** The file after one call of [writeData]. *)
Definition persist (data : Board) (d : Disk) : Disk :=
  {| file := if writable d then Some (json_board data) else file d;
     writable := writable d;
     write_calls := S (write_calls d) |}.

Definition committed (data : Board) (ws : nat) (event : value) (w : World)
  : World :=
  {| inMemoryData := Some data;
     disk := persist data (disk w);
     clients := clients w;
     readyState := readyState w;
     outbox := outbox w ++ fanout w None (JSON_stringify event)
                        ++ echo w ws (JSON_stringify event) |}.

Definition settle (ws : nat) (r : Res Outcome) (w : World) : World :=
  match r with
  | Ok (Commit data event) => committed data ws event w
  | Ok (Relay event) =>
      set_outbox (outbox w ++ fanout w (Some ws) (JSON_stringify event)) w
  | Ok Nothing => w
  | Throw _ => w
  end.

(** ** Vocabulary of the properties *)

(** A parsed message whose [type] is the label of [k]. *)
Definition is_kind (k : Kind) (msg : value) : Prop :=
  Js.prop msg "type" = Ok (JStr (label k)).

(** [x.key], with [undefined] where the read would throw. *)
Definition field (key : string) (x : value) : value :=
  match Js.prop x key with
  | Ok v => v
  | Throw _ => JUndef
  end.

Definition payload_of (msg : value) : value := field "payload" msg.

Definition nullish (v : value) : bool :=
  match v with
  | JUndef | JNull => true
  | _ => false
  end.

(** Arrays and objects are compared by reference. *)
Definition is_reference (v : value) : bool :=
  match v with
  | JArr _ | JObj _ => true
  | _ => false
  end.

(** No two values of the list are [===]. *)
Fixpoint distinct (l : list value) : bool :=
  match l with
  | [] => true
  | x :: l' => forallb (fun y => negb (Js.strict_eq x y)) l' && distinct l'
  end.

Definition distinct_ids (l : list value) : bool := distinct (map (field "id") l).
Definition distinct_names (l : list value) : bool :=
  distinct (map (field "name") l).

(** No element of [l] has its [key] [===] to [v]. *)
Definition fresh (key : string) (v : value) (l : list value) : bool :=
  forallb (fun x => negb (Js.strict_eq (field key x) v)) l.

(** The [type] of the event a case sends out. *)
Definition event_label (k : Kind) : string :=
  match k with
  | ADD_TASK => "TASK_ADDED"
  | UPDATE_TASK => "TASK_UPDATED"
  | DELETE_TASK => "TASK_DELETED"
  | MOVE_TASK => "TASK_MOVED"
  | ADD_COMMENT => "COMMENT_ADDED"
  | UPDATE_TEAM_MEMBER => "TEAM_UPDATED"
  | USER_ACTIVITY => "USER_ACTIVITY"
  end.

(** The frames handed to socket [c], oldest first. *)
Definition frames_to (c : nat) (l : list (nat * value)) : list value :=
  map snd (List.filter (fun f => Nat.eqb (fst f) c) l).

(** ** Sample boards, frames and processes *)

Module Sample.

Definition task (id status : string) : value :=
  JObj [("id", JStr id); ("status", JStr status); ("comments", JArr [])].

Definition t1 : value := task "t1" "todo".
Definition t2 : value := task "t2" "todo".

Definition frame (k : Kind) (payload : value) : value :=
  envelope (label k) payload.

(** Sockets 1 and 2 are registered and open, socket 3 is registered and
    closing; the file does not exist yet. *)
Definition process (b : Board) (can_write : bool) : World :=
  {| inMemoryData := Some b;
     disk := {| file := None; writable := can_write; write_calls := 0 |};
     clients := [1; 2; 3];
     readyState := fun c =>
       match c with
       | 1 | 2 => OPEN
       | 3 => CLOSING
       | _ => CLOSED
       end;
     outbox := [] |}.

Definition board1 : Board := {| tasks := [t1]; teamMembers := [] |}.

(** A board reached by ADD_TASK with payload [null], then with [t1]. *)
Definition board_null : Board :=
  {| tasks := [JNull; t1]; teamMembers := [] |}.

(** A board reached by ADD_TASK with two payloads that carry the id
    [t1]: the first in column [todo], the second in column [review]. *)
Definition board_twins : Board :=
  {| tasks := [t1; task "t1" "review"]; teamMembers := [] |}.

Definition move_t1_done : value :=
  frame MOVE_TASK (JObj [("id", JStr "t1"); ("status", JStr "done")]).

Definition ann : value :=
  JObj [("name", JObj [("first", JStr "Ann"); ("last", JStr "Lee")]);
        ("role", JStr "design")].

Definition bob : value :=
  JObj [("name", JStr "Bob"); ("role", JStr "dev")].

End Sample.

(** ** Vocabulary of the properties of the store *)

(** A value [JSON.parse] can return: no [undefined] anywhere in it. *)
Fixpoint is_json (v : value) : bool :=
  match v with
  | JUndef => false
  | JArr items => forallb is_json items
  | JObj fields => forallb (fun kv => is_json (snd kv)) fields
  | _ => true
  end.

Definition board_is_json (b : Board) : bool :=
  forallb is_json (tasks b) && forallb is_json (teamMembers b).

(** The file can be written and holds the JSON text of the resident
    board. *)
Definition mirrored (w : World) : Prop :=
  writable (disk w) = true /\
  exists b, inMemoryData w = Some b /\ file (disk w) = Some (json_board b).

(** A new process over the same file: [inMemoryData] is [null] again, no
    socket is connected, nothing has been sent. *)
Definition restart (w : World) : World :=
  {| inMemoryData := None;
     disk := disk w;
     clients := [];
     readyState := fun _ => CLOSED;
     outbox := [] |}.

(** The board [readData] answers with. *)
Definition resident (w : World) : Board :=
  match inMemoryData w with
  | Some b => b
  | None =>
      match file (disk w) with
      | Some b => b
      | None => empty_board
      end
  end.

(** The case of [k] looks a task up and does nothing when there is none;
    [lookup_field k] is the property of the payload that holds the id. *)
Definition lookup_field (k : Kind) : option string :=
  match k with
  | UPDATE_TASK | MOVE_TASK => Some "id"
  | ADD_COMMENT => Some "taskId"
  | _ => None
  end.

Module Scenario.

Definition noted : value :=
  JObj [("id", JStr "t1"); ("status", JStr "todo");
        ("comments", JArr [JStr "first"])].

Definition bare : value := JObj [("id", JStr "t9"); ("status", JStr "todo")].

Definition board : Board :=
  {| tasks := [noted; bare]; teamMembers := [Sample.bob] |}.

Definition comment_on (id : string) : value :=
  Sample.frame ADD_COMMENT
    (JObj [("taskId", JStr id); ("comment", JStr "second")]).

Definition renamed : value :=
  JObj [("id", JStr "t1"); ("status", JStr "doing"); ("title", JStr "new")].

(** A board with an entry that is not JSON: [undefined], pushed by an
    ADD_TASK frame without payload. *)
Definition holed : Board :=
  {| tasks := [JUndef; noted]; teamMembers := [] |}.

Definition fresh_process : World :=
  {| inMemoryData := None;
     disk := {| file := None; writable := true; write_calls := 0 |};
     clients := [];
     readyState := fun _ => CLOSED;
     outbox := [] |}.

End Scenario.

(** * Properties *)

(** ** The statements of the store and of the sockets *)

Lemma writeData_run (data : Board) (w : World) :
  writeData data w
  = (Ok tt, set_disk (persist data (disk w)) (set_data (Some data) w)).
Proof.
  unfold writeData, bind, put_data, try_catch, fs_writeFileSync, persist, ret.
  cbn. destruct (writable (disk w)) eqn:E; reflexivity.
Qed.

Lemma readData_resident (b : Board) (w : World) :
  inMemoryData w = Some b -> readData w = (Ok b, w).
Proof.
  intros H. unfold readData, bind, get_data. rewrite H. reflexivity.
Qed.

Lemma initDataFile_without_file (w : World) :
  file (disk w) = None ->
  inMemoryData (exec initDataFile w) = Some empty_board.
Proof.
  intros H. unfold exec, initDataFile, bind, try_catch, read_file.
  rewrite H. cbn. unfold fs_writeFileSync. cbn.
  by destruct (writable (disk w)).
Qed.

Lemma initDataFile_with_file (b : Board) (w : World) :
  file (disk w) = Some b ->
  exec initDataFile w = set_data (Some b) w.
Proof.
  intros H. unfold exec, initDataFile, bind, try_catch, read_file.
  rewrite H. reflexivity.
Qed.

Lemma forEach_send (text : value) (ex : option nat) (w : World)
  (l : list nat) (out : list (nat * value)) :
  forEach l
    (fun client w' =>
       if differs client ex && is_open (readyState w' client)
       then ws_send client text w'
       else (Ok tt, w'))
    (set_outbox out w)
  = (Ok tt,
     set_outbox
       (out ++ map (fun c => (c, text))
                   (List.filter
                      (fun c => differs c ex && is_open (readyState w c)) l))
       w).
Proof.
  revert out. induction l as [|c l IH]; intros out.
  - cbn. rewrite app_nil_r. reflexivity.
  - cbn [forEach List.filter]. unfold bind at 1. cbn [readyState set_outbox].
    destruct (differs c ex && is_open (readyState w c)) eqn:E.
    + apply andb_true_iff in E as [_ E]. unfold ws_send at 1.
      cbn [readyState set_outbox outbox]. rewrite E.
      change (set_outbox (out ++ [(c, text)]) (set_outbox out w))
        with (set_outbox (out ++ [(c, text)]) w).
      rewrite IH. cbn [map]. rewrite <- app_assoc. reflexivity.
    + apply IH.
Qed.

Lemma broadcast_run (message : value) (ex : option nat) (w : World) :
  broadcast message ex w
  = (Ok tt, set_outbox (outbox w ++ fanout w ex (JSON_stringify message)) w).
Proof.
  destruct w as [d k cl rs ob]. unfold broadcast, fanout.
  exact (forEach_send (JSON_stringify message) ex (mkWorld d k cl rs ob) cl ob).
Qed.

Lemma bind_run {A B} (m : M A) (k : A -> M B) (w w' : World) (a : A) :
  m w = (Ok a, w') -> bind m k w = k a w'.
Proof. intros H. unfold bind. rewrite H. reflexivity. Qed.

Lemma bind_throw {A B} (m : M A) (k : A -> M B) (w w' : World) (e : Exn) :
  m w = (Throw e, w') -> bind m k w = (Throw e, w').
Proof. intros H. unfold bind. rewrite H. reflexivity. Qed.

Lemma deref_run (b : Board) (w : World) :
  inMemoryData w = Some b -> deref w = (Ok b, w).
Proof. intros H. unfold deref, bind, get_data. rewrite H. reflexivity. Qed.

Lemma mutate_run (f : Board -> Board) (b : Board) (w : World) :
  inMemoryData w = Some b ->
  mutate f w = (Ok tt, set_data (Some (f b)) w).
Proof.
  intros H. unfold mutate. rewrite (bind_run _ _ _ _ _ (deref_run b w H)).
  reflexivity.
Qed.

Lemma commit_run (b : Board) (ws : nat) (event : value) (w : World) :
  inMemoryData w = Some b ->
  commit ws event w = (Ok tt, committed b ws event w).
Proof.
  intros H. unfold commit.
  rewrite (bind_run _ _ _ _ _ (deref_run b w H)).
  rewrite (bind_run _ _ _ _ _ (writeData_run b w)).
  rewrite (bind_run _ _ _ _ _ (broadcast_run _ _ _)).
  unfold ws_send, committed, echo, fanout. cbn.
  destruct (is_open (readyState w ws));
    rewrite <- ?app_assoc, ?app_nil_r; reflexivity.
Qed.

Lemma bind_lift {A B} (r : Res A) (k : A -> M B) (w : World) :
  bind (lift r) k w
  = match r with Ok a => k a w | Throw e => (Throw e, w) end.
Proof. destruct r; reflexivity. Qed.

Lemma try_catch_unit (m : M unit) (w : World) :
  try_catch m (fun _ => ret tt) w = (Ok tt, exec m w).
Proof.
  unfold try_catch, exec. destruct (m w) as [[[]|e] w']; reflexivity.
Qed.

(** ** The callback computes [route] and settles it *)

Lemma prop_defined (v : value) (k : string) :
  nullish v = false -> Js.prop v k = Ok (field k v).
Proof. unfold field. destruct v; cbn; intros; congruence. Qed.

Lemma prop_ok_defined (v : value) (k : string) (x : value) :
  Js.prop v k = Ok x -> nullish v = false.
Proof. destruct v; cbn; intros; congruence. Qed.

Ltac run_lift :=
  repeat (rewrite ?bind_lift;
          match goal with
          | |- context [match ?r with Ok _ => _ | Throw _ => _ end] =>
              destruct r; cbn [rbind snd]; try reflexivity
          end).

Ltac run_commit H :=
  erewrite (bind_run _ _ _ _ _ (mutate_run _ _ _ H));
  erewrite commit_run by reflexivity;
  match goal with |- context [set_data _ ?w] => destruct w end; reflexivity.

Lemma dispatch_run (ws : nat) (msg : value) (b : Board) (k : Kind)
  (w : World) :
  inMemoryData w = Some b ->
  nullish msg = false ->
  exec (dispatch ws msg b k) w = settle ws (route k msg b) w.
Proof.
  intros H Hmsg. unfold exec.
  destruct k; unfold dispatch, route;
    rewrite !(prop_defined msg "payload" Hmsg);
    rewrite ?bind_lift; cbn [rbind].
  - run_commit H.
  - destruct (Js.findIndex _ _) as [[i|]|e]; cbn [rbind snd];
      [|reflexivity..].
    rewrite ?bind_lift; cbn [rbind]. run_commit H.
  - destruct (Js.filter _ _) as [kept|e]; cbn [rbind snd]; [|reflexivity].
    erewrite (bind_run _ _ _ _ _ (mutate_run _ _ _ H)).
    rewrite bind_lift.
    erewrite commit_run by reflexivity. destruct w; reflexivity.
  - destruct (Js.findIndex _ _) as [[i|]|e]; cbn [rbind snd];
      [|reflexivity..].
    rewrite ?bind_lift; cbn [rbind]. run_lift. run_commit H.
  - destruct (Js.findIndex _ _) as [[i|]|e]; cbn [rbind snd];
      [|reflexivity..].
    cbv zeta. run_lift. run_commit H.
  - destruct (Js.findIndex _ _) as [[i|]|e]; cbn [rbind snd];
      [| |reflexivity]; rewrite ?bind_lift;
      erewrite (bind_run _ _ _ _ _ (mutate_run _ _ _ H));
      (erewrite bind_run by (apply deref_run; reflexivity));
      erewrite commit_run by reflexivity; destruct w; reflexivity.
  - rewrite broadcast_run. reflexivity.
Qed.

Theorem on_message_run (ws : nat) (message : Raw) (b : Board) (w : World) :
  inMemoryData w = Some b ->
  on_message ws message w = (Ok tt, settle ws (interpret message b) w).
Proof.
  intros H. unfold on_message. rewrite try_catch_unit. f_equal.
  unfold exec, interpret. rewrite bind_lift.
  destruct message as [|msg]; cbn [JSON_parse rbind snd]; [reflexivity|].
  rewrite (bind_run _ _ _ _ _ (readData_resident b w H)).
  rewrite bind_lift.
  destruct (Js.prop msg "type") as [tag|e] eqn:Htag; cbn [rbind snd];
    [|reflexivity].
  destruct (switch tag) as [k|]; [|reflexivity].
  apply (dispatch_run ws msg b k w H (prop_ok_defined _ _ _ Htag)).
Qed.

Lemma switch_label (k : Kind) : switch (JStr (label k)) = Some k.
Proof. destruct k; reflexivity. Qed.

Lemma is_kind_defined (k : Kind) (msg : value) :
  is_kind k msg -> nullish msg = false.
Proof. apply prop_ok_defined. Qed.

Lemma interpret_kind (k : Kind) (msg : value) (b : Board) :
  is_kind k msg -> interpret (Json msg) b = route k msg b.
Proof.
  intros H. unfold interpret. cbn [JSON_parse rbind]. rewrite H.
  cbn [rbind]. rewrite switch_label. reflexivity.
Qed.

Lemma payload_defined (k : Kind) (msg : value) :
  is_kind k msg -> Js.prop msg "payload" = Ok (payload_of msg).
Proof. intros H. apply prop_defined, (is_kind_defined k), H. Qed.

(** A frame of kind [k] is handled by settling [route k]. *)
Lemma handle_kind (k : Kind) (ws : nat) (msg : value) (b : Board)
  (w : World) :
  inMemoryData w = Some b ->
  is_kind k msg ->
  exec (on_message ws (Json msg)) w = settle ws (route k msg b) w.
Proof.
  intros H Hk. unfold exec. rewrite (on_message_run ws _ b w H).
  cbn [snd]. rewrite (interpret_kind k msg b Hk). reflexivity.
Qed.

Lemma on_message_returns (ws : nat) (message : Raw) (w : World) :
  on_message ws message w = (Ok tt, exec (on_message ws message) w).
Proof.
  unfold exec, on_message, try_catch.
  match goal with |- context [bind ?m ?k w] => destruct (bind m k w) as [[[]|e] w'] end;
    reflexivity.
Qed.

Lemma replay_cons (ws : nat) (message : Raw) (queue : list (nat * Raw))
  (w : World) :
  exec (replay ((ws, message) :: queue)) w
  = exec (replay queue) (exec (on_message ws message) w).
Proof.
  unfold replay, exec at 1. cbn [forEach].
  rewrite (bind_run _ _ _ _ _ (on_message_returns ws message w)).
  reflexivity.
Qed.

(** ** ADD_TASK *)

Lemma route_add_task (msg : value) (b : Board) :
  is_kind ADD_TASK msg ->
  route ADD_TASK msg b
  = Ok (Commit (set_tasks (tasks b ++ [payload_of msg]) b)
               (envelope "TASK_ADDED" (payload_of msg))).
Proof.
  intros H. unfold route. rewrite (payload_defined _ _ H). reflexivity.
Qed.

Lemma replay_add_tasks (queue : list (nat * value)) (b : Board) (w : World) :
  inMemoryData w = Some b ->
  Forall (fun f => is_kind ADD_TASK (snd f)) queue ->
  inMemoryData
    (exec (replay (map (fun f => (fst f, Json (snd f))) queue)) w)
  = Some (set_tasks (tasks b ++ map (fun f => payload_of (snd f)) queue) b).
Proof.
  revert b w. induction queue as [|[ws msg] queue IH]; intros b w H Hq.
  - cbn. rewrite app_nil_r, H. destruct b; reflexivity.
  - apply Forall_cons in Hq as [Hmsg Hq]. cbn [map fst snd] in *.
    rewrite replay_cons.
    rewrite (handle_kind ADD_TASK ws msg b w H Hmsg), route_add_task by done.
    cbn [settle]. erewrite IH by (try reflexivity; exact Hq).
    cbn. rewrite <- app_assoc. reflexivity.
Qed.

(** C1: a run of ADD_TASK frames with pairwise distinct payload ids over the
    empty board leaves exactly the payloads in [tasks], in the order in
    which the frames were handled. *)
Theorem add_task_replay_keeps_order (queue : list (nat * value)) (w : World) :
  inMemoryData w = Some empty_board ->
  Forall (fun f => is_kind ADD_TASK (snd f)) queue ->
  distinct_ids (map (fun f => payload_of (snd f)) queue) = true ->
  option_map tasks
    (inMemoryData
       (exec (replay (map (fun f => (fst f, Json (snd f))) queue)) w))
  = Some (map (fun f => payload_of (snd f)) queue).
Proof.
  intros H Hq _. rewrite (replay_add_tasks queue empty_board w H Hq).
  reflexivity.
Qed.

(** ** [findIndex] and [filter] with a callback that may throw *)

Section Callbacks.
Variable f : value -> Res bool.

Lemma findIndex_found (l : list value) (i : nat) :
  Js.findIndex f l = Ok (Some i) ->
  exists x, l !! i = Some x /\ f x = Ok true /\
    forall j y, j < i -> l !! j = Some y -> f y = Ok false.
Proof.
  revert i. induction l as [|x l IH]; intros i; cbn [Js.findIndex].
  - discriminate.
  - destruct (f x) as [[|]|e] eqn:Hx; cbn [rbind]; try discriminate.
    + intros [= <-]. exists x. repeat split; [done|]. intros j y Hj. lia.
    + destruct (Js.findIndex f l) as [[i'|]|e]; cbn; try discriminate.
      intros [= <-]. destruct (IH i' eq_refl) as (y & Hy & Hfy & Hbefore).
      exists y. repeat split; [done..|].
      intros [|j] z Hj Hz; cbn in Hz.
      * congruence.
      * apply (Hbefore j); [lia|done].
Qed.

Lemma findIndex_missing (l : list value) :
  Js.findIndex f l = Ok None -> Forall (fun x => f x = Ok false) l.
Proof.
  induction l as [|x l IH]; cbn [Js.findIndex]; [constructor|].
  destruct (f x) as [[|]|e] eqn:Hx; cbn [rbind]; try discriminate.
  destruct (Js.findIndex f l) as [[i'|]|e]; cbn; try discriminate.
  intros _. constructor; [done|]. apply IH. reflexivity.
Qed.

Lemma findIndex_hit (pre post : list value) (x : value) :
  Forall (fun y => f y = Ok false) pre -> f x = Ok true ->
  Js.findIndex f (pre ++ x :: post) = Ok (Some (length pre)).
Proof.
  intros Hpre Hx. induction Hpre as [|y pre Hy _ IH]; cbn.
  - rewrite Hx. reflexivity.
  - rewrite Hy. cbn. rewrite IH. reflexivity.
Qed.

Lemma findIndex_no_match (l : list value) :
  Forall (fun x => f x <> Ok true) l ->
  Js.findIndex f l = Ok None \/ exists e, Js.findIndex f l = Throw e.
Proof.
  induction 1 as [|x l Hx _ IH]; cbn; [by left|].
  destruct (f x) as [[|]|e]; cbn; [done| |right; eauto].
  destruct IH as [->|[e ->]]; cbn; [by left|right; eauto].
Qed.

Lemma filter_total (g : value -> bool) (l : list value) :
  Forall (fun x => f x = Ok (g x)) l ->
  Js.filter f l = Ok (List.filter g l).
Proof.
  induction 1 as [|x l Hx _ IH]; cbn; [done|].
  rewrite Hx. cbn. rewrite IH. reflexivity.
Qed.

Lemma filter_sublist (l r : list value) :
  Js.filter f l = Ok r -> sublist r l.
Proof.
  revert r. induction l as [|x l IH]; intros r; cbn.
  - intros [= <-]. constructor.
  - destruct (f x) as [keep|e]; cbn; [|discriminate].
    destruct (Js.filter f l) as [r'|e]; cbn; [|discriminate].
    intros [= <-]. destruct keep; constructor; by apply IH.
Qed.
End Callbacks.

Lemma index_lookup (l : list value) (i : nat) (x : value) :
  l !! i = Some x -> Js.index l i = x.
Proof. intros H. unfold Js.index. rewrite H. reflexivity. Qed.

(** ** Strict equality and distinctness *)

Lemma strict_eq_eq (a b : value) : Js.strict_eq a b = true -> a = b.
Proof.
  destruct a, b; cbn; try discriminate; intros H; f_equal.
  - by apply Bool.eqb_prop.
  - by apply Z.eqb_eq.
  - by apply String.eqb_eq.
Qed.

Lemma strict_eq_refl (a : value) :
  Js.strict_eq a a = negb (is_reference a).
Proof.
  destruct a; cbn; try reflexivity.
  - apply Bool.eqb_reflx.
  - apply Z.eqb_refl.
  - apply String.eqb_refl.
Qed.

Lemma forallb_map {A B} (p : B -> bool) (g : A -> B) (l : list A) :
  forallb p (map g l) = forallb (fun x => p (g x)) l.
Proof. induction l as [|x l IH]; cbn; [done|]. by rewrite IH. Qed.

Lemma distinct_snoc (l : list value) (x : value) :
  distinct (l ++ [x])
  = distinct l && forallb (fun y => negb (Js.strict_eq y x)) l.
Proof.
  induction l as [|y l IH]; cbn; [done|].
  rewrite forallb_app, IH. cbn.
  generalize (forallb (fun y0 => negb (Js.strict_eq y y0)) l),
    (forallb (fun y0 => negb (Js.strict_eq y0 x)) l),
    (Js.strict_eq y x), (distinct l).
  intros [] [] [] []; reflexivity.
Qed.

Lemma forallb_sublist {A} (p : A -> bool) (r l : list A) :
  sublist r l -> forallb p l = true -> forallb p r = true.
Proof.
  induction 1 as [|x r l _ IH|x r l _ IH]; cbn; [done| |].
  - intros [Hx Hl]%andb_true_iff. rewrite Hx. by apply IH.
  - intros [_ Hl]%andb_true_iff. by apply IH.
Qed.

Lemma distinct_sublist (r l : list value) :
  sublist r l -> distinct l = true -> distinct r = true.
Proof.
  induction 1 as [|x r l Hs IH|x r l _ IH]; cbn; [done| |].
  - intros [Hx Hl]%andb_true_iff. rewrite (forallb_sublist _ _ _ Hs Hx).
    by apply IH.
  - intros [_ Hl]%andb_true_iff. by apply IH.
Qed.

Lemma sublist_map {A B} (g : A -> B) (r l : list A) :
  sublist r l -> sublist (map g r) (map g l).
Proof. induction 1; cbn; by constructor. Qed.

Lemma map_insert_same {A B} (g : A -> B) (l : list A) (i : nat) (x p : A) :
  l !! i = Some x -> g p = g x -> map g (<[i := p]> l) = map g l.
Proof.
  revert i. induction l as [|y l IH]; intros [|i]; cbn; try done.
  - intros [= ->] ->. reflexivity.
  - intros Hx Hg. f_equal. by apply (IH i).
Qed.

(** ** Reads and writes of properties *)

Lemma own_put_same (k : string) (v : value) (fs : list (string * value)) :
  Js.own k (Js.put k v fs) = Some v.
Proof.
  induction fs as [|[k' v'] fs IH]; cbn.
  - by rewrite String.eqb_refl.
  - destruct (String.eqb k k') eqn:E; cbn.
    + by rewrite String.eqb_refl.
    + by rewrite E.
Qed.

Lemma own_put_other (k k' : string) (v : value) (fs : list (string * value)) :
  k' <> k -> Js.own k' (Js.put k v fs) = Js.own k' fs.
Proof.
  intros Hne. induction fs as [|[k0 v0] fs IH]; cbn.
  - apply String.eqb_neq in Hne. by rewrite Hne.
  - destruct (String.eqb k k0) eqn:E; cbn.
    + apply String.eqb_eq in E as <-.
      apply String.eqb_neq in Hne. by rewrite Hne.
    + by rewrite IH.
Qed.

Lemma field_assign_other (t t' : value) (k k' : string) (v : value) :
  Js.assign t k v = Ok t' -> k' <> k -> field k' t' = field k' t.
Proof.
  destruct t; cbn; try discriminate; intros [= <-] Hne; try reflexivity.
  unfold field. cbn. by rewrite own_put_other.
Qed.

Lemma same_key_true (key fld : string) (msg x : value) :
  same_key key msg fld x = Ok true ->
  nullish x = false /\ nullish (payload_of msg) = false /\
  field key x = field fld (payload_of msg) /\
  is_reference (field key x) = false.
Proof.
  unfold same_key, payload_of, field.
  destruct (Js.prop x key) as [a|] eqn:Ha; cbn [rbind]; [|discriminate].
  destruct (Js.prop msg "payload") as [p|]; cbn [rbind]; [|discriminate].
  destruct (Js.prop p fld) as [c|] eqn:Hc; cbn [rbind]; [|discriminate].
  intros [= Heq]. pose proof (strict_eq_eq _ _ Heq) as ->.
  repeat split; eauto using prop_ok_defined.
  rewrite strict_eq_refl in Heq. by destruct (is_reference c).
Qed.

Lemma same_key_false (key fld : string) (msg x : value) :
  same_key key msg fld x = Ok false ->
  Js.strict_eq (field key x) (field fld (payload_of msg)) = false.
Proof.
  unfold same_key, payload_of, field.
  destruct (Js.prop x key) as [a|]; cbn [rbind]; [|discriminate].
  destruct (Js.prop msg "payload") as [p|]; cbn [rbind]; [|discriminate].
  destruct (Js.prop p fld) as [c|]; cbn [rbind]; [|discriminate].
  by intros [= ->].
Qed.

Lemma same_key_total (key fld : string) (msg x : value) :
  nullish msg = false -> nullish (payload_of msg) = false ->
  nullish x = false ->
  same_key key msg fld x
  = Ok (Js.strict_eq (field key x) (field fld (payload_of msg))).
Proof.
  intros Hm Hp Hx. unfold same_key.
  rewrite (prop_defined x key Hx), (prop_defined msg "payload" Hm).
  cbn [rbind]. fold (payload_of msg).
  rewrite (prop_defined (payload_of msg) fld Hp). reflexivity.
Qed.

(** ** Distinct task ids *)

Lemma distinct_ids_snoc (l : list value) (p : value) :
  distinct_ids l = true -> fresh "id" (field "id" p) l = true ->
  distinct_ids (l ++ [p]) = true.
Proof.
  unfold distinct_ids, fresh. intros Hl Hp.
  rewrite map_app. cbn [map]. rewrite distinct_snoc, Hl, forallb_map.
  exact Hp.
Qed.

Lemma distinct_ids_replace (l : list value) (i : nat) (x p : value) :
  l !! i = Some x -> field "id" p = field "id" x ->
  distinct_ids (<[i := p]> l) = distinct_ids l.
Proof.
  intros Hx Hp. unfold distinct_ids.
  by rewrite (map_insert_same (field "id") l i x p).
Qed.

Lemma route_keeps_distinct_ids (k : Kind) (msg : value) (b b' : Board)
  (event : value) :
  is_kind k msg ->
  route k msg b = Ok (Commit b' event) ->
  distinct_ids (tasks b) = true ->
  (k = ADD_TASK -> fresh "id" (field "id" (payload_of msg)) (tasks b) = true) ->
  distinct_ids (tasks b') = true.
Proof.
  intros Hk Hroute Hb Hfresh. pose proof (payload_defined k msg Hk) as Hp.
  destruct k; unfold route in Hroute; rewrite ?Hp in Hroute;
    cbn [rbind] in Hroute.
  - injection Hroute as <- _. cbn [tasks set_tasks].
    by apply distinct_ids_snoc; [|apply Hfresh].
  - destruct (Js.findIndex _ _) as [[i|]|e] eqn:Hfind; try discriminate.
    cbn [rbind] in Hroute. rewrite ?Hp in Hroute. cbn [rbind] in Hroute.
    injection Hroute as <- _. cbn [tasks set_tasks].
    apply findIndex_found in Hfind as (x & Hx & Hsame & _).
    apply same_key_true in Hsame as (_ & _ & Hid & _).
    by rewrite (distinct_ids_replace _ i x).
  - destruct (Js.filter _ _) as [kept|e] eqn:Hkept; try discriminate.
    cbn [rbind] in Hroute. injection Hroute as <- _. cbn [tasks set_tasks].
    apply filter_sublist in Hkept.
    exact (distinct_sublist _ _ (sublist_map (field "id") _ _ Hkept) Hb).
  - destruct (Js.findIndex _ _) as [[i|]|e] eqn:Hfind; try discriminate.
    cbn [rbind] in Hroute. rewrite ?Hp in Hroute. cbn [rbind] in Hroute.
    destruct (Js.prop (payload_of msg) "status") as [status|];
      try discriminate; cbn [rbind] in Hroute.
    destruct (Js.assign _ _ _) as [moved|] eqn:Hmoved; try discriminate.
    cbn [rbind] in Hroute. injection Hroute as <- _. cbn [tasks set_tasks].
    apply findIndex_found in Hfind as (x & Hx & _).
    rewrite (index_lookup _ _ _ Hx) in Hmoved.
    rewrite (distinct_ids_replace _ i x); [done..|].
    by apply (field_assign_other x moved "status" "id" status).
  - destruct (Js.findIndex _ _) as [[i|]|e] eqn:Hfind; try discriminate.
    cbn [rbind] in Hroute. cbv zeta in Hroute.
    destruct (Js.prop (Js.index (tasks b) i) "comments") as [comments|];
      try discriminate; cbn [rbind] in Hroute.
    rewrite ?Hp in Hroute. cbn [rbind] in Hroute.
    destruct (Js.prop (payload_of msg) "comment") as [comment|];
      try discriminate; cbn [rbind] in Hroute.
    destruct (Js.push comments comment) as [pushed|];
      try discriminate; cbn [rbind] in Hroute.
    destruct (Js.assign _ _ _) as [commented|] eqn:Hdone; try discriminate.
    cbn [rbind] in Hroute. injection Hroute as <- _. cbn [tasks set_tasks].
    apply findIndex_found in Hfind as (x & Hx & _).
    rewrite (index_lookup _ _ _ Hx) in Hdone.
    rewrite (distinct_ids_replace _ i x); [done..|].
    by apply (field_assign_other x commented "comments" "id" pushed).
  - destruct (Js.findIndex _ _) as [[i|]|e]; try discriminate;
      cbn [rbind] in Hroute; injection Hroute as <- _; exact Hb.
  - discriminate.
Qed.

(** C1, at two frames from two sockets. *)
Lemma add_task_replay_keeps_order_witness :
  option_map tasks
    (inMemoryData
       (exec (replay [(1, Json (Sample.frame ADD_TASK Sample.t1));
                      (2, Json (Sample.frame ADD_TASK Sample.t2))])
             (Sample.process empty_board true)))
  = Some [Sample.t1; Sample.t2].
Proof.
  apply (add_task_replay_keeps_order
           [(1, Sample.frame ADD_TASK Sample.t1);
            (2, Sample.frame ADD_TASK Sample.t2)]
           (Sample.process empty_board true)).
  - reflexivity.
  - repeat constructor.
  - reflexivity.
Defined.

(** ** Uniqueness of task ids *)

(** C2 fails as stated: ADD_TASK appends its payload without looking at the
    ids already in the store, so a second task with id [t1] joins the
    first. *)
Lemma add_task_duplicates_id :
  inMemoryData (Sample.process Sample.board1 true) = Some Sample.board1 /\
  distinct_ids (tasks Sample.board1) = true /\
  is_kind ADD_TASK (Sample.frame ADD_TASK Sample.t1) /\
  option_map (fun b => (tasks b, distinct_ids (tasks b)))
    (inMemoryData
       (exec (on_message 1 (Json (Sample.frame ADD_TASK Sample.t1)))
             (Sample.process Sample.board1 true)))
  = Some ([Sample.t1; Sample.t1], false).
Proof. repeat split. Qed.

(** C2, amended: from a board whose task ids are pairwise distinct, one
    frame of any of the seven kinds leaves a board whose task ids are
    pairwise distinct, provided that the payload of an ADD_TASK frame
    carries an id that no resident task has. *)
Theorem task_ids_stay_distinct (k : Kind) (ws : nat) (msg : value)
  (b : Board) (w : World) :
  inMemoryData w = Some b ->
  is_kind k msg ->
  distinct_ids (tasks b) = true ->
  (k = ADD_TASK ->
   fresh "id" (field "id" (payload_of msg)) (tasks b) = true) ->
  exists b',
    inMemoryData (exec (on_message ws (Json msg)) w) = Some b' /\
    distinct_ids (tasks b') = true.
Proof.
  intros H Hk Hb Hfresh. rewrite (handle_kind k ws msg b w H Hk).
  destruct (route k msg b) as [[b' event|event|]|e] eqn:Hroute; cbn [settle].
  - exists b'. split; [reflexivity|].
    exact (route_keeps_distinct_ids k msg b b' event Hk Hroute Hb Hfresh).
  - exists b. by split.
  - exists b. by split.
  - exists b. by split.
Qed.

Lemma task_ids_stay_distinct_witness :
  exists b',
    inMemoryData
      (exec (on_message 1 (Json (Sample.frame ADD_TASK Sample.t2)))
            (Sample.process Sample.board1 true)) = Some b' /\
    distinct_ids (tasks b') = true.
Proof.
  apply (task_ids_stay_distinct ADD_TASK 1 (Sample.frame ADD_TASK Sample.t2)
           Sample.board1 (Sample.process Sample.board1 true));
    reflexivity.
Defined.

(** ** Frames that are ignored *)

(** C3: an UPDATE_TASK frame whose [payload.id] is [===] to the id of no
    resident task changes nothing: the board, the file and the count of
    writes, and the frames handed to the sockets are what they were. *)
Theorem update_task_unknown_id_is_ignored (ws : nat) (msg : value)
  (b : Board) (w : World) :
  inMemoryData w = Some b ->
  is_kind UPDATE_TASK msg ->
  Forall (fun t => same_key "id" msg "id" t <> Ok true) (tasks b) ->
  on_message ws (Json msg) w = (Ok tt, w).
Proof.
  intros H Hk Hnone. rewrite on_message_returns. f_equal.
  rewrite (handle_kind UPDATE_TASK ws msg b w H Hk). unfold route.
  destruct (findIndex_no_match _ _ Hnone) as [->|[e ->]]; reflexivity.
Qed.

Lemma update_task_unknown_id_is_ignored_witness :
  on_message 1 (Json (Sample.frame UPDATE_TASK Sample.t2))
    (Sample.process Sample.board1 true)
  = (Ok tt, Sample.process Sample.board1 true).
Proof.
  apply (update_task_unknown_id_is_ignored 1 _ Sample.board1).
  - reflexivity.
  - reflexivity.
  - repeat constructor. discriminate.
Defined.

Lemma switch_some (tag : value) (k : Kind) :
  switch tag = Some k -> tag = JStr (label k).
Proof.
  unfold switch. intros [_ H]%find_some. by apply strict_eq_eq.
Qed.

(** C10: a frame that parses but whose [type] is none of the seven labels
    changes nothing: no write to the board, no call of [writeData], no
    frame to any socket. *)
Theorem unknown_type_is_ignored (ws : nat) (msg : value) (b : Board)
  (w : World) :
  inMemoryData w = Some b ->
  (forall k, ~ is_kind k msg) ->
  on_message ws (Json msg) w = (Ok tt, w).
Proof.
  intros H Hnone. rewrite (on_message_run ws _ b w H). f_equal.
  unfold interpret. cbn [JSON_parse rbind].
  destruct (Js.prop msg "type") as [tag|e] eqn:Htag; cbn [rbind];
    [|reflexivity].
  destruct (switch tag) as [k|] eqn:Hk; [|reflexivity].
  apply switch_some in Hk as ->. by destruct (Hnone k).
Qed.

Lemma unknown_type_is_ignored_witness :
  on_message 1 (Json (envelope "RENAME_TASK" Sample.t1))
    (Sample.process Sample.board1 true)
  = (Ok tt, Sample.process Sample.board1 true).
Proof.
  apply (unknown_type_is_ignored 1 _ Sample.board1).
  - reflexivity.
  - intros []; discriminate.
Defined.

(** ** DELETE_TASK *)

(** C4 fails as stated: on a board that holds a task, a DELETE_TASK frame
    whose payload is [null] makes the callback of [filter] throw at
    [msg.payload.id]; the [catch] swallows the error and no TASK_DELETED
    frame reaches the open sockets 1 and 2. *)
Lemma delete_task_null_payload_is_silent :
  is_kind DELETE_TASK (Sample.frame DELETE_TASK JNull) /\
  interpret (Json (Sample.frame DELETE_TASK JNull)) Sample.board1
  = Throw TypeError /\
  outbox (exec (on_message 1 (Json (Sample.frame DELETE_TASK JNull)))
               (Sample.process Sample.board1 true)) = [] /\
  on_message 1 (Json (Sample.frame DELETE_TASK JNull))
    (Sample.process Sample.board1 true)
  = (Ok tt, Sample.process Sample.board1 true).
Proof. repeat split; reflexivity. Qed.

Lemma route_delete_task (msg : value) (b : Board) :
  is_kind DELETE_TASK msg ->
  tasks b = [] \/
  (nullish (payload_of msg) = false /\
   Forall (fun t => nullish t = false) (tasks b)) ->
  route DELETE_TASK msg b
  = Ok (Commit
          (set_tasks
             (List.filter
                (fun t => negb (Js.strict_eq (field "id" t)
                                  (field "id" (payload_of msg))))
                (tasks b)) b)
          (envelope "TASK_DELETED" (payload_of msg))).
Proof.
  intros Hk Hsafe. unfold route.
  rewrite (filter_total _
             (fun t => negb (Js.strict_eq (field "id" t)
                               (field "id" (payload_of msg))))).
  - cbn [rbind]. rewrite (payload_defined _ _ Hk). reflexivity.
  - destruct Hsafe as [->|[Hp Hall]]; [constructor|].
    eapply Forall_impl; [exact Hall|]. intros t Ht. unfold other_key.
    rewrite (same_key_total "id" "id" msg t
               (is_kind_defined _ _ Hk) Hp Ht).
    reflexivity.
Qed.

(** C4, amended: when the payload is neither [null] nor absent and no entry
    of [tasks] is [null] (or when [tasks] is empty), DELETE_TASK keeps, in
    order, exactly the tasks whose id is not [===] to [payload.id], and
    hands a TASK_DELETED frame with the payload to every open socket and
    once more to the sender, whether or not a task was removed. *)
Theorem delete_task_filters_and_notifies (ws : nat) (msg : value)
  (b : Board) (w : World) :
  inMemoryData w = Some b ->
  is_kind DELETE_TASK msg ->
  tasks b = [] \/
  (nullish (payload_of msg) = false /\
   Forall (fun t => nullish t = false) (tasks b)) ->
  exists b',
    inMemoryData (exec (on_message ws (Json msg)) w) = Some b' /\
    tasks b'
    = List.filter
        (fun t => negb (Js.strict_eq (field "id" t)
                          (field "id" (payload_of msg))))
        (tasks b) /\
    teamMembers b' = teamMembers b /\
    outbox (exec (on_message ws (Json msg)) w)
    = outbox w
      ++ fanout w None
           (JSON_stringify (envelope "TASK_DELETED" (payload_of msg)))
      ++ echo w ws
           (JSON_stringify (envelope "TASK_DELETED" (payload_of msg))).
Proof.
  intros H Hk Hsafe.
  rewrite (handle_kind DELETE_TASK ws msg b w H Hk).
  rewrite (route_delete_task msg b Hk Hsafe). cbn [settle].
  eexists. repeat split.
Qed.

Lemma delete_task_filters_and_notifies_witness :
  exists b',
    inMemoryData
      (exec (on_message 1 (Json (Sample.frame DELETE_TASK Sample.t2)))
            (Sample.process Sample.board1 true)) = Some b' /\
    tasks b'
    = List.filter
        (fun t => negb (Js.strict_eq (field "id" t)
                          (field "id" (payload_of
                             (Sample.frame DELETE_TASK Sample.t2)))))
        (tasks Sample.board1) /\
    teamMembers b' = teamMembers Sample.board1 /\
    outbox (exec (on_message 1 (Json (Sample.frame DELETE_TASK Sample.t2)))
                 (Sample.process Sample.board1 true))
    = outbox (Sample.process Sample.board1 true)
      ++ fanout (Sample.process Sample.board1 true) None
           (JSON_stringify (envelope "TASK_DELETED"
              (payload_of (Sample.frame DELETE_TASK Sample.t2))))
      ++ echo (Sample.process Sample.board1 true) 1
           (JSON_stringify (envelope "TASK_DELETED"
              (payload_of (Sample.frame DELETE_TASK Sample.t2)))).
Proof.
  apply (delete_task_filters_and_notifies 1
           (Sample.frame DELETE_TASK Sample.t2) Sample.board1
           (Sample.process Sample.board1 true)).
  - reflexivity.
  - reflexivity.
  - right. split; [reflexivity|]. repeat constructor.
Defined.

(** ** MOVE_TASK *)

(** C5 fails as stated, in two ways.  (1) The board [board_null] holds the
    task [t1], whose id is [===] to [payload.id], behind a [null] entry
    (ADD_TASK accepts any payload): the search reads [t.id] on [null]
    first and throws, the [catch] drops the frame, and the status of [t1]
    stays ["todo"]; nothing is written, no frame is sent.  (2) On
    [board_twins] two tasks carry the id [t1] (ADD_TASK does not check
    ids): [findIndex] stops at the first, and the second, whose id is
    [===] to [payload.id] as well, keeps its status ["review"]. *)
Lemma move_task_misses_matching_task :
  (option_map tasks
     (inMemoryData
        (exec (replay [(1, Json (Sample.frame ADD_TASK JNull));
                       (1, Json (Sample.frame ADD_TASK Sample.t1))])
              (Sample.process empty_board true)))
   = Some (tasks Sample.board_null) /\
   is_kind MOVE_TASK Sample.move_t1_done /\
   field "status" (payload_of Sample.move_t1_done) = JStr "done" /\
   tasks Sample.board_null !! 1 = Some Sample.t1 /\
   same_key "id" Sample.move_t1_done "id" Sample.t1 = Ok true /\
   on_message 2 (Json Sample.move_t1_done)
     (Sample.process Sample.board_null true)
   = (Ok tt, Sample.process Sample.board_null true) /\
   field "status" Sample.t1 = JStr "todo") /\
  (option_map tasks
     (inMemoryData
        (exec (replay [(1, Json (Sample.frame ADD_TASK Sample.t1));
                       (2, Json (Sample.frame ADD_TASK
                                   (Sample.task "t1" "review")))])
              (Sample.process empty_board true)))
   = Some (tasks Sample.board_twins) /\
   tasks Sample.board_twins !! 1 = Some (Sample.task "t1" "review") /\
   same_key "id" Sample.move_t1_done "id" (Sample.task "t1" "review")
   = Ok true /\
   option_map tasks
     (inMemoryData
        (exec (on_message 2 (Json Sample.move_t1_done))
              (Sample.process Sample.board_twins true)))
   = Some [Sample.task "t1" "done"; Sample.task "t1" "review"]).
Proof. repeat split; reflexivity. Qed.

(** C5, amended: when the search [findIndex(t => t.id === payload.id)]
    returns an index (it meets a matching task before any [null] entry)
    and the task at that index is an object, MOVE_TASK sets the [status] of
    that task, the first one that matches, to [payload.status]; the other
    fields of the task keep their values and their places, every other
    task and [teamMembers] are unchanged. *)
Theorem move_task_sets_only_status (ws : nat) (msg : value) (b : Board)
  (w : World) (i : nat) (fs : list (string * value)) :
  inMemoryData w = Some b ->
  is_kind MOVE_TASK msg ->
  Js.findIndex (same_key "id" msg "id") (tasks b) = Ok (Some i) ->
  tasks b !! i = Some (JObj fs) ->
  exists b' fs',
    inMemoryData (exec (on_message ws (Json msg)) w) = Some b' /\
    tasks b' !! i = Some (JObj fs') /\
    fs' = Js.put "status" (field "status" (payload_of msg)) fs /\
    Js.own "status" fs' = Some (field "status" (payload_of msg)) /\
    (forall k, k <> "status" -> Js.own k fs' = Js.own k fs) /\
    (forall j, j <> i -> tasks b' !! j = tasks b !! j) /\
    length (tasks b') = length (tasks b) /\
    teamMembers b' = teamMembers b.
Proof.
  intros H Hk Hfind Hi.
  rewrite (handle_kind MOVE_TASK ws msg b w H Hk). unfold route.
  rewrite Hfind. cbn [rbind]. rewrite (payload_defined _ _ Hk). cbn [rbind].
  apply findIndex_found in Hfind as (x & Hx & Hsame & _).
  apply same_key_true in Hsame as (_ & Hp & _).
  rewrite (prop_defined _ "status" Hp). cbn [rbind].
  rewrite (index_lookup _ _ _ Hi). cbn [Js.assign rbind settle].
  eexists _, _. split; [reflexivity|]. cbn [tasks teamMembers set_tasks].
  repeat split.
  - apply list_lookup_insert_eq. by apply lookup_lt_Some in Hi.
  - apply own_put_same.
  - intros k Hne. by apply own_put_other.
  - intros j Hne. by apply list_lookup_insert_ne.
  - apply length_insert.
Qed.

Lemma move_task_sets_only_status_witness :
  exists b' fs',
    inMemoryData
      (exec (on_message 1 (Json Sample.move_t1_done))
            (Sample.process Sample.board1 true)) = Some b' /\
    tasks b' !! 0 = Some (JObj fs') /\
    fs' = Js.put "status" (field "status" (payload_of Sample.move_t1_done))
            [("id", JStr "t1"); ("status", JStr "todo"); ("comments", JArr [])]
    /\
    Js.own "status" fs'
    = Some (field "status" (payload_of Sample.move_t1_done)) /\
    (forall k, k <> "status" ->
       Js.own k fs'
       = Js.own k [("id", JStr "t1"); ("status", JStr "todo");
                   ("comments", JArr [])]) /\
    (forall j, j <> 0 -> tasks b' !! j = tasks Sample.board1 !! j) /\
    length (tasks b') = length (tasks Sample.board1) /\
    teamMembers b' = teamMembers Sample.board1.
Proof.
  apply (move_task_sets_only_status 1 Sample.move_t1_done Sample.board1
           (Sample.process Sample.board1 true) 0
           [("id", JStr "t1"); ("status", JStr "todo");
            ("comments", JArr [])]);
    reflexivity.
Defined.

(** ** Who is handed which frame *)

Lemma frames_to_app (c : nat) (l1 l2 : list (nat * value)) :
  frames_to c (l1 ++ l2) = frames_to c l1 ++ frames_to c l2.
Proof. unfold frames_to. by rewrite List.filter_app, map_app. Qed.

Section Fanout.
Variables (text : value) (p : nat -> bool) (c : nat).

Let frames (l : list nat) : list (nat * value) :=
  map (fun x => (x, text)) (List.filter p l).

Lemma frames_to_skipped (l : list nat) :
  c ∉ l \/ p c = false -> frames_to c (frames l) = [].
Proof.
  intros Hskip. induction l as [|x l IH]; [done|].
  assert (c ∉ l \/ p c = false) as Hl.
  { destruct Hskip as [Hc|Hp]; [left|by right].
    intros Hin. apply Hc. by right. }
  unfold frames in *. cbn [List.filter].
  destruct (p x) eqn:Hx; [|by apply IH].
  cbn [map]. unfold frames_to in *. cbn [List.filter fst].
  destruct (Nat.eqb x c) eqn:E; [|by apply IH].
  apply Nat.eqb_eq in E as ->.
  destruct Hskip as [Hc|Hp]; [|congruence].
  destruct Hc. by left.
Qed.

Lemma frames_to_served (l : list nat) :
  NoDup l -> c ∈ l -> p c = true -> frames_to c (frames l) = [text].
Proof.
  intros Hnd Hin Hp. induction Hnd as [|x l Hx Hnd IH]; [by inversion Hin|].
  unfold frames in *. cbn [List.filter].
  destruct (decide (x = c)) as [->|Hne].
  - rewrite Hp. cbn [map]. unfold frames_to. cbn [List.filter fst].
    rewrite Nat.eqb_refl. cbn [map snd]. f_equal.
    apply frames_to_skipped. by left.
  - assert (c ∈ l) as Hl by (inversion Hin; congruence).
    destruct (p x).
    + cbn [map]. unfold frames_to in *. cbn [List.filter fst].
      apply Nat.eqb_neq in Hne. rewrite Hne. by apply IH.
    + by apply IH.
Qed.

Lemma frames_member (l : list nat) (x : nat) (t : value) :
  In (x, t) (frames l) <-> t = text /\ In x l /\ p x = true.
Proof.
  unfold frames. rewrite in_map_iff. split.
  - intros (y & [= <- <-] & [Hy Hp]%filter_In). done.
  - intros (-> & Hx & Hp). exists x. split; [done|]. by apply filter_In.
Qed.
End Fanout.

(** ** USER_ACTIVITY *)

(** C7: a USER_ACTIVITY frame is handed, as a USER_ACTIVITY event with the
    same payload, to every registered open socket other than the sender;
    the sender is handed nothing; the board and the file are untouched and
    [writeData] is not called. *)
Theorem user_activity_skips_sender (ws : nat) (msg : value) (b : Board)
  (w : World) :
  inMemoryData w = Some b ->
  is_kind USER_ACTIVITY msg ->
  exists new,
    outbox (exec (on_message ws (Json msg)) w) = outbox w ++ new /\
    (forall c, In c (clients w) -> is_open (readyState w c) = true ->
               c <> ws ->
               In (c, JSON_stringify
                        (envelope "USER_ACTIVITY" (payload_of msg))) new) /\
    (forall c t, In (c, t) new ->
       c <> ws /\
       t = JSON_stringify (envelope "USER_ACTIVITY" (payload_of msg))) /\
    frames_to ws new = [] /\
    inMemoryData (exec (on_message ws (Json msg)) w) = Some b /\
    disk (exec (on_message ws (Json msg)) w) = disk w.
Proof.
  intros H Hk. rewrite (handle_kind USER_ACTIVITY ws msg b w H Hk).
  unfold route. rewrite (payload_defined _ _ Hk). cbn [rbind settle].
  eexists. split; [reflexivity|]. unfold fanout.
  split; [|split; [|split; [|split; [exact H|reflexivity]]]].
  - intros c Hc Hopen Hne. apply frames_member. repeat split; [done|].
    cbn [differs]. apply Nat.eqb_neq in Hne. by rewrite Hne, Hopen.
  - intros c t (-> & _ & Hp)%frames_member. cbn [differs] in Hp. split.
    + intros ->. by rewrite Nat.eqb_refl in Hp.
    + done.
  - apply frames_to_skipped. right. cbn [differs].
    by rewrite Nat.eqb_refl.
Qed.

Lemma user_activity_skips_sender_witness :
  exists new,
    outbox (exec (on_message 1 (Json (Sample.frame USER_ACTIVITY
                                       (JStr "typing"))))
                 (Sample.process Sample.board1 true))
    = outbox (Sample.process Sample.board1 true) ++ new /\
    (forall c, In c (clients (Sample.process Sample.board1 true)) ->
       is_open (readyState (Sample.process Sample.board1 true) c) = true ->
       c <> 1 ->
       In (c, JSON_stringify
                (envelope "USER_ACTIVITY"
                   (payload_of (Sample.frame USER_ACTIVITY (JStr "typing")))))
          new) /\
    (forall c t, In (c, t) new ->
       c <> 1 /\
       t = JSON_stringify
             (envelope "USER_ACTIVITY"
                (payload_of (Sample.frame USER_ACTIVITY (JStr "typing"))))) /\
    frames_to 1 new = [] /\
    inMemoryData
      (exec (on_message 1 (Json (Sample.frame USER_ACTIVITY (JStr "typing"))))
            (Sample.process Sample.board1 true)) = Some Sample.board1 /\
    disk (exec (on_message 1 (Json (Sample.frame USER_ACTIVITY
                                      (JStr "typing"))))
               (Sample.process Sample.board1 true))
    = disk (Sample.process Sample.board1 true).
Proof.
  apply (user_activity_skips_sender 1
           (Sample.frame USER_ACTIVITY (JStr "typing")) Sample.board1
           (Sample.process Sample.board1 true));
    reflexivity.
Defined.

(** ** The echo of a committed event *)

Lemma route_event_label (k : Kind) (msg : value) (b b' : Board)
  (event : value) :
  route k msg b = Ok (Commit b' event) ->
  exists body, event = envelope (event_label k) body.
Proof.
  destruct k; unfold route; intros Hroute;
    repeat match type of Hroute with
      | context [match ?r with Ok _ => _ | Throw _ => _ end] =>
          destruct r; cbn [rbind] in Hroute; try discriminate
      | context [rbind ?r _] =>
          destruct r; cbn [rbind] in Hroute; try discriminate
      | context [match ?o with Some _ => _ | None => _ end] =>
          destruct o; cbn [rbind] in Hroute; try discriminate
      end;
    injection Hroute as _ <-; eexists; reflexivity.
Qed.

Lemma assign_defined (t : value) (k : string) (v : value) :
  nullish t = false -> exists t', Js.assign t k v = Ok t'.
Proof. destruct t; cbn; try discriminate; eauto. Qed.

(** A search by id that finds a task is enough for UPDATE_TASK and
    MOVE_TASK to reach [writeData]. *)
Lemma found_task_commits (k : Kind) (msg : value) (b : Board) (i : nat) :
  is_kind k msg ->
  k = UPDATE_TASK \/ k = MOVE_TASK ->
  Js.findIndex (same_key "id" msg "id") (tasks b) = Ok (Some i) ->
  exists b' event, route k msg b = Ok (Commit b' event).
Proof.
  intros Hk [-> | ->] Hfind; unfold route; rewrite Hfind; cbn [rbind];
    rewrite (payload_defined _ _ Hk); cbn [rbind]; [eauto|].
  apply findIndex_found in Hfind as (x & Hx & Hsame & _).
  apply same_key_true in Hsame as (Hx0 & Hp & _).
  rewrite (prop_defined _ "status" Hp), (index_lookup _ _ _ Hx).
  cbn [rbind].
  destruct (assign_defined x "status" (field "status" (payload_of msg)) Hx0)
    as [moved ->].
  cbn [rbind]. eauto.
Qed.

(** C8: when a frame of a kind other than USER_ACTIVITY reaches its
    [writeData] (the case's mutation is carried out), the event is handed
    to every registered open socket by [broadcast] and then once more to
    the sender by [ws.send]: the open sender is handed the same text twice,
    every other open socket once. *)
Theorem committed_event_reaches_sender_twice (k : Kind) (ws : nat)
  (msg : value) (b b' : Board) (event : value) (w : World) :
  inMemoryData w = Some b ->
  is_kind k msg ->
  k <> USER_ACTIVITY ->
  route k msg b = Ok (Commit b' event) ->
  NoDup (clients w) ->
  ws ∈ clients w ->
  is_open (readyState w ws) = true ->
  exists new body,
    outbox (exec (on_message ws (Json msg)) w) = outbox w ++ new /\
    event = envelope (event_label k) body /\
    new = fanout w None (JSON_stringify event)
          ++ [(ws, JSON_stringify event)] /\
    frames_to ws new = [JSON_stringify event; JSON_stringify event] /\
    (forall c, c ∈ clients w -> c <> ws ->
               is_open (readyState w c) = true ->
               frames_to c new = [JSON_stringify event]).
Proof.
  intros H Hk _ Hroute Hnd Hin Hopen.
  destruct (route_event_label k msg b b' event Hroute) as [body Hbody].
  rewrite (handle_kind k ws msg b w H Hk), Hroute. cbn [settle committed outbox].
  unfold echo. rewrite Hopen.
  exists (fanout w None (JSON_stringify event) ++ [(ws, JSON_stringify event)]),
    body.
  repeat split; [done|..].
  - rewrite frames_to_app. unfold fanout.
    rewrite (frames_to_served _ _ ws (clients w) Hnd Hin) by (by rewrite Hopen).
    unfold frames_to. cbn. by rewrite Nat.eqb_refl.
  - intros c Hc Hne Hc_open. rewrite frames_to_app. unfold fanout.
    rewrite (frames_to_served _ _ c (clients w) Hnd Hc) by (by rewrite Hc_open).
    unfold frames_to. cbn. apply Nat.eqb_neq in Hne.
    rewrite Nat.eqb_sym, Hne. reflexivity.
Qed.

Lemma committed_event_reaches_sender_twice_witness :
  exists new body,
    outbox (exec (on_message 1 (Json Sample.move_t1_done))
                 (Sample.process Sample.board1 true))
    = outbox (Sample.process Sample.board1 true) ++ new /\
    envelope "TASK_MOVED" (payload_of Sample.move_t1_done)
    = envelope (event_label MOVE_TASK) body /\
    new = fanout (Sample.process Sample.board1 true) None
            (JSON_stringify
               (envelope "TASK_MOVED" (payload_of Sample.move_t1_done)))
          ++ [(1, JSON_stringify
                    (envelope "TASK_MOVED" (payload_of Sample.move_t1_done)))]
    /\
    frames_to 1 new
    = [JSON_stringify (envelope "TASK_MOVED" (payload_of Sample.move_t1_done));
       JSON_stringify (envelope "TASK_MOVED" (payload_of Sample.move_t1_done))]
    /\
    (forall c, c ∈ clients (Sample.process Sample.board1 true) -> c <> 1 ->
       is_open (readyState (Sample.process Sample.board1 true) c) = true ->
       frames_to c new
       = [JSON_stringify
            (envelope "TASK_MOVED" (payload_of Sample.move_t1_done))]).
Proof.
  apply (committed_event_reaches_sender_twice MOVE_TASK 1 Sample.move_t1_done
           Sample.board1
           {| tasks := [Sample.task "t1" "done"]; teamMembers := [] |}
           (envelope "TASK_MOVED" (payload_of Sample.move_t1_done))
           (Sample.process Sample.board1 true)).
  - reflexivity.
  - reflexivity.
  - discriminate.
  - reflexivity.
  - apply (bool_decide_unpack _). vm_compute. reflexivity.
  - apply (bool_decide_unpack _). vm_compute. reflexivity.
  - reflexivity.
Defined.

(** ** Persistence failures *)

Lemma writeData_never_throws (data : Board) (w : World) :
  fst (writeData data w) = Ok tt.
Proof. by rewrite writeData_run. Qed.

Lemma connect_run (c : nat) (b : Board) (w : World) :
  inMemoryData w = Some b ->
  outbox (exec (connect c) w)
  = outbox w ++ [(c, JSON_stringify (envelope "INIT" (board_value b)))].
Proof.
  intros H. unfold exec, connect, wss_accept, on_connection.
  unfold bind at 1.
  erewrite bind_run by (apply (readData_resident b); exact H).
  unfold ws_send. cbn [readyState]. rewrite Nat.eqb_refl. reflexivity.
Qed.

Lemma init_snapshot (b : Board) :
  JSON_stringify (envelope "INIT" (board_value b))
  = envelope "INIT" (board_value (json_board b)).
Proof. reflexivity. Qed.

(** C9: with a file that cannot be written, ADD_TASK still appends its
    payload to the resident board and sends its TASK_ADDED frames; the
    failed write is caught inside [writeData], the callback returns
    normally and nothing is rolled back; a socket that connects next is
    sent an INIT snapshot whose [tasks] end with the added task. *)
Theorem add_task_survives_write_failure (ws c : nat) (msg : value)
  (b : Board) (w : World) :
  inMemoryData w = Some b ->
  writable (disk w) = false ->
  is_kind ADD_TASK msg ->
  exists b' w',
    on_message ws (Json msg) w = (Ok tt, w') /\
    (forall data w0, fst (writeData data w0) = Ok tt) /\
    inMemoryData w' = Some b' /\
    tasks b' = tasks b ++ [payload_of msg] /\
    teamMembers b' = teamMembers b /\
    file (disk w') = file (disk w) /\
    outbox w'
    = outbox w
      ++ fanout w None
           (JSON_stringify (envelope "TASK_ADDED" (payload_of msg)))
      ++ echo w ws (JSON_stringify (envelope "TASK_ADDED" (payload_of msg)))
    /\
    outbox (exec (connect c) w')
    = outbox w'
      ++ [(c, envelope "INIT"
                (JObj [("tasks",
                        JArr (map elem_json (tasks b)
                              ++ [elem_json (payload_of msg)]));
                       ("teamMembers",
                        JArr (map elem_json (teamMembers b)))]))].
Proof.
  intros H Hdisk Hk.
  exists (set_tasks (tasks b ++ [payload_of msg]) b),
    (exec (on_message ws (Json msg)) w).
  split; [apply on_message_returns|].
  split; [apply writeData_never_throws|].
  rewrite (handle_kind ADD_TASK ws msg b w H Hk), (route_add_task msg b Hk).
  cbn [settle]. repeat split.
  - cbn. by rewrite Hdisk.
  - erewrite connect_run by reflexivity. rewrite init_snapshot.
    unfold board_value, json_board. cbn [tasks teamMembers set_tasks].
    by rewrite map_app.
Qed.

Lemma add_task_survives_write_failure_witness :
  exists b' w',
    on_message 1 (Json (Sample.frame ADD_TASK Sample.t2))
      (Sample.process Sample.board1 false) = (Ok tt, w') /\
    (forall data w0, fst (writeData data w0) = Ok tt) /\
    inMemoryData w' = Some b' /\
    tasks b'
    = tasks Sample.board1 ++ [payload_of (Sample.frame ADD_TASK Sample.t2)] /\
    teamMembers b' = teamMembers Sample.board1 /\
    file (disk w') = file (disk (Sample.process Sample.board1 false)) /\
    outbox w'
    = outbox (Sample.process Sample.board1 false)
      ++ fanout (Sample.process Sample.board1 false) None
           (JSON_stringify
              (envelope "TASK_ADDED"
                 (payload_of (Sample.frame ADD_TASK Sample.t2))))
      ++ echo (Sample.process Sample.board1 false) 1
           (JSON_stringify
              (envelope "TASK_ADDED"
                 (payload_of (Sample.frame ADD_TASK Sample.t2))))
    /\
    outbox (exec (connect 4) w')
    = outbox w'
      ++ [(4, envelope "INIT"
                (JObj [("tasks",
                        JArr (map elem_json (tasks Sample.board1)
                              ++ [elem_json
                                    (payload_of
                                       (Sample.frame ADD_TASK Sample.t2))]));
                       ("teamMembers",
                        JArr (map elem_json (teamMembers Sample.board1)))]))].
Proof.
  apply (add_task_survives_write_failure 1 4
           (Sample.frame ADD_TASK Sample.t2) Sample.board1
           (Sample.process Sample.board1 false));
    reflexivity.
Defined.

(** ** UPDATE_TEAM_MEMBER *)

Lemma findIndex_split (f : value -> Res bool) (l : list value) (i : nat) :
  Js.findIndex f l = Ok (Some i) ->
  exists pre x post,
    l = pre ++ x :: post /\ length pre = i /\
    Forall (fun y => f y = Ok false) pre /\ f x = Ok true.
Proof.
  revert i. induction l as [|x l IH]; intros i; cbn [Js.findIndex].
  - discriminate.
  - destruct (f x) as [[|]|e] eqn:Hx; cbn [rbind]; try discriminate.
    + intros [= <-]. by exists [], x, l.
    + destruct (Js.findIndex f l) as [[i'|]|e]; cbn; try discriminate.
      intros [= <-].
      destruct (IH i' eq_refl) as (pre & y & post & -> & <- & Hpre & Hy).
      exists (x :: pre), y, post. repeat split; [|done]. by constructor.
Qed.

Lemma findIndex_throws_at (f : value -> Res bool) (pre post : list value)
  (x : value) (e : Exn) :
  Forall (fun y => f y = Ok false) pre -> f x = Throw e ->
  Js.findIndex f (pre ++ x :: post) = Throw e.
Proof.
  intros Hpre Hx. induction Hpre as [|y pre Hy _ IH]; cbn.
  - by rewrite Hx.
  - rewrite Hy. cbn. by rewrite IH.
Qed.

Lemma insert_middle {A} (pre post : list A) (x p : A) :
  <[length pre := p]> (pre ++ x :: post) = pre ++ p :: post.
Proof. induction pre as [|y pre IH]; cbn; [done|]. f_equal. exact IH. Qed.

Section Upsert.
Variables (msg : value).
Hypothesis Hkind : is_kind UPDATE_TEAM_MEMBER msg.

Let by_name : value -> Res bool := same_key "name" msg "name".

Lemma payload_matches_itself :
  nullish (payload_of msg) = false ->
  is_reference (field "name" (payload_of msg)) = false ->
  by_name (payload_of msg) = Ok true.
Proof.
  intros Hp Hname. unfold by_name.
  rewrite (same_key_total "name" "name" msg _
             (is_kind_defined _ _ Hkind) Hp Hp).
  by rewrite strict_eq_refl, Hname.
Qed.

Lemma null_payload_throws :
  nullish (payload_of msg) = true ->
  by_name (payload_of msg) = Throw TypeError.
Proof.
  intros Hp. unfold by_name, same_key.
  by destruct (payload_of msg).
Qed.

Lemma route_team_member (b : Board) :
  route UPDATE_TEAM_MEMBER msg b
  = let? memberIndex := Js.findIndex by_name (teamMembers b) in
    let members :=
      match memberIndex with
      | None => teamMembers b ++ [payload_of msg]
      | Some i => <[i := payload_of msg]> (teamMembers b)
      end in
    Ok (Commit (set_teamMembers members b)
               (envelope "TEAM_UPDATED" (JArr members))).
Proof.
  unfold route. fold by_name.
  destruct (Js.findIndex by_name (teamMembers b)); cbn [rbind]; [|done].
  by rewrite (payload_defined _ _ Hkind).
Qed.

(** What one more UPDATE_TEAM_MEMBER with the same payload does to the
    members left by the first. *)
Lemma upsert_again (b b1 : Board) (event : value) :
  is_reference (field "name" (payload_of msg)) = false ->
  route UPDATE_TEAM_MEMBER msg b = Ok (Commit b1 event) ->
  match route UPDATE_TEAM_MEMBER msg b1 with
  | Ok (Commit b2 _) => teamMembers b2 = teamMembers b1
  | Ok _ => False
  | Throw _ => True
  end.
Proof.
  intros Hname. rewrite !route_team_member.
  destruct (Js.findIndex by_name (teamMembers b)) as [[i|]|e] eqn:Hfind;
    cbn [rbind]; [| |discriminate]; cbv zeta; intros [= <- _];
    cbn [teamMembers set_teamMembers].
  - destruct (findIndex_split _ _ _ Hfind)
      as (pre & x & post & -> & <- & Hpre & Hx).
    rewrite insert_middle.
    pose proof Hx as (_ & Hp & _)%same_key_true.
    rewrite (findIndex_hit by_name pre post _ Hpre
               (payload_matches_itself Hp Hname)).
    cbn [rbind teamMembers set_teamMembers]. apply insert_middle.
  - apply findIndex_missing in Hfind.
    destruct (nullish (payload_of msg)) eqn:Hp.
    + by rewrite (findIndex_throws_at by_name _ [] _ TypeError Hfind
                    (null_payload_throws Hp)).
    + rewrite (findIndex_hit by_name _ [] _ Hfind
                 (payload_matches_itself Hp Hname)).
      cbn [rbind teamMembers set_teamMembers]. apply insert_middle.
Qed.

Lemma upsert_keeps_distinct_names (b b1 : Board) (event : value) :
  route UPDATE_TEAM_MEMBER msg b = Ok (Commit b1 event) ->
  distinct_names (teamMembers b) = true ->
  distinct_names (teamMembers b1) = true.
Proof.
  rewrite route_team_member. unfold distinct_names.
  destruct (Js.findIndex by_name (teamMembers b)) as [[i|]|e] eqn:Hfind;
    cbn [rbind]; [| |discriminate]; cbv zeta; intros [= <- _] Hb;
    cbn [teamMembers set_teamMembers].
  - apply findIndex_found in Hfind as (x & Hx & Hsame & _).
    apply same_key_true in Hsame as (_ & _ & Hname & _).
    by rewrite (map_insert_same (field "name") _ i x).
  - apply findIndex_missing in Hfind.
    rewrite map_app. cbn [map]. rewrite distinct_snoc, Hb, forallb_map.
    cbn [andb]. apply forallb_forall. intros y Hy.
    rewrite List.Forall_forall in Hfind.
    by rewrite (same_key_false _ _ _ _ (Hfind y Hy)).
Qed.
End Upsert.

(** C6 fails as stated: a [name] that is an object is compared by reference
    with the names in the store, and the freshly parsed payload is never
    the stored object; the same payload sent twice is appended twice. *)
Lemma team_member_object_name_is_appended_twice :
  is_kind UPDATE_TEAM_MEMBER (Sample.frame UPDATE_TEAM_MEMBER Sample.ann) /\
  option_map teamMembers
    (inMemoryData
       (exec (on_message 1 (Json (Sample.frame UPDATE_TEAM_MEMBER Sample.ann)))
             (Sample.process empty_board true)))
  = Some [Sample.ann] /\
  option_map teamMembers
    (inMemoryData
       (exec (on_message 1 (Json (Sample.frame UPDATE_TEAM_MEMBER Sample.ann)))
          (exec (on_message 1
                   (Json (Sample.frame UPDATE_TEAM_MEMBER Sample.ann)))
                (Sample.process empty_board true))))
  = Some [Sample.ann; Sample.ann].
Proof. repeat split; reflexivity. Qed.

(** C6, amended: for a payload whose [name] is not an object or an array (a
    string, a number, a boolean, [null] or no name at all), handling the
    same UPDATE_TEAM_MEMBER payload twice leaves the [teamMembers] that
    handling it once leaves.  When the search by name returns an index the
    member there is replaced in place, when it returns [-1] the payload is
    appended, and names that were pairwise distinct stay so. *)
Theorem update_team_member_is_idempotent (ws ws' : nat) (msg : value)
  (b : Board) (w : World) :
  inMemoryData w = Some b ->
  is_kind UPDATE_TEAM_MEMBER msg ->
  is_reference (field "name" (payload_of msg)) = false ->
  exists once twice,
    inMemoryData (exec (on_message ws (Json msg)) w) = Some once /\
    inMemoryData
      (exec (on_message ws' (Json msg)) (exec (on_message ws (Json msg)) w))
    = Some twice /\
    teamMembers twice = teamMembers once /\
    (forall i,
       Js.findIndex (same_key "name" msg "name") (teamMembers b)
       = Ok (Some i) ->
       teamMembers once = <[i := payload_of msg]> (teamMembers b)) /\
    (Js.findIndex (same_key "name" msg "name") (teamMembers b) = Ok None ->
     teamMembers once = teamMembers b ++ [payload_of msg]) /\
    (distinct_names (teamMembers b) = true ->
     distinct_names (teamMembers once) = true).
Proof.
  intros H Hk Hname.
  rewrite (handle_kind UPDATE_TEAM_MEMBER ws msg b w H Hk).
  pose proof (route_team_member msg Hk b) as Hshape.
  destruct (route UPDATE_TEAM_MEMBER msg b) as [[b1 event|event|]|e]
    eqn:Hroute; cbn [settle].
  - pose proof (upsert_again msg Hk b b1 event Hname Hroute) as Hagain.
    pose proof (upsert_keeps_distinct_names msg Hk b b1 event Hroute) as Hd.
    assert (exists twice,
      inMemoryData
        (exec (on_message ws' (Json msg)) (committed b1 ws event w))
      = Some twice /\ teamMembers twice = teamMembers b1)
      as (twice & Htwice & Hsame).
    { rewrite (handle_kind UPDATE_TEAM_MEMBER ws' msg b1
                 (committed b1 ws event w) eq_refl Hk).
      destruct (route UPDATE_TEAM_MEMBER msg b1) as [[b2 ?|?|]|?];
        cbn [settle]; [|done..|].
      - by exists b2.
      - by exists b1. }
    exists b1, twice. repeat split; [done..| | |done].
    + intros i Hi. rewrite Hi in Hshape. cbn in Hshape.
      by injection Hshape as -> _.
    + intros Hi. rewrite Hi in Hshape. cbn in Hshape.
      by injection Hshape as -> _.
  - destruct (Js.findIndex _ (teamMembers b)); discriminate.
  - destruct (Js.findIndex _ (teamMembers b)); discriminate.
  - exists b, b. rewrite (handle_kind UPDATE_TEAM_MEMBER ws' msg b w H Hk).
    rewrite Hroute. cbn [settle]. repeat split; [done..| | |done].
    + intros i Hi. by rewrite Hi in Hshape.
    + intros Hi. by rewrite Hi in Hshape.
Qed.

Lemma update_team_member_is_idempotent_witness :
  exists once twice,
    inMemoryData
      (exec (on_message 1 (Json (Sample.frame UPDATE_TEAM_MEMBER Sample.bob)))
            (Sample.process empty_board true)) = Some once /\
    inMemoryData
      (exec (on_message 2 (Json (Sample.frame UPDATE_TEAM_MEMBER Sample.bob)))
         (exec (on_message 1
                  (Json (Sample.frame UPDATE_TEAM_MEMBER Sample.bob)))
               (Sample.process empty_board true)))
    = Some twice /\
    teamMembers twice = teamMembers once /\
    (forall i,
       Js.findIndex
         (same_key "name" (Sample.frame UPDATE_TEAM_MEMBER Sample.bob) "name")
         (teamMembers empty_board) = Ok (Some i) ->
       teamMembers once
       = <[i := payload_of (Sample.frame UPDATE_TEAM_MEMBER Sample.bob)]>
           (teamMembers empty_board)) /\
    (Js.findIndex
       (same_key "name" (Sample.frame UPDATE_TEAM_MEMBER Sample.bob) "name")
       (teamMembers empty_board) = Ok None ->
     teamMembers once
     = teamMembers empty_board
       ++ [payload_of (Sample.frame UPDATE_TEAM_MEMBER Sample.bob)]) /\
    (distinct_names (teamMembers empty_board) = true ->
     distinct_names (teamMembers once) = true).
Proof.
  apply (update_team_member_is_idempotent 1 2
           (Sample.frame UPDATE_TEAM_MEMBER Sample.bob) empty_board
           (Sample.process empty_board true));
    reflexivity.
Defined.

(** * Further properties of the store *)

(** ** JSON text of JSON values *)

Lemma value_nested_ind (P : value -> Prop) :
  P JUndef -> P JNull -> (forall b, P (JBool b)) -> (forall n, P (JNum n)) ->
  (forall s, P (JStr s)) ->
  (forall items, Forall P items -> P (JArr items)) ->
  (forall fields, Forall (fun kv => P (snd kv)) fields -> P (JObj fields)) ->
  forall v, P v.
Proof.
  intros Hundef Hnull Hbool Hnum Hstr Harr Hobj.
  fix IH 1. intros [ | | b | n | s | items | fields];
    [exact Hundef | exact Hnull | apply Hbool | apply Hnum | apply Hstr | | ].
  - apply Harr.
    exact ((fix go (l : list value) : Forall P l :=
              match l with
              | [] => @List.Forall_nil _ P
              | x :: l' => @List.Forall_cons _ P x l' (IH x) (go l')
              end) items).
  - apply Hobj.
    exact ((fix go (l : list (string * value))
              : Forall (fun kv => P (snd kv)) l :=
              match l with
              | [] => @List.Forall_nil _ _
              | kv :: l' =>
                  @List.Forall_cons _ (fun kv => P (snd kv)) kv l'
                    (IH (snd kv)) (go l')
              end) fields).
Qed.

Lemma to_json_id (v : value) : is_json v = true -> Js.to_json v = v.
Proof.
  induction v as [ | | b | n | s | items IH | fields IH]
    using value_nested_ind; cbn [is_json Js.to_json]; try done.
  - intros Hall. f_equal. induction IH as [|x l Hx _ IHl]; [done|].
    cbn in Hall |- *. apply andb_true_iff in Hall as [Hx' Hl].
    rewrite (IHl Hl). f_equal. rewrite (Hx Hx'). by destruct x.
  - intros Hall. f_equal. induction IH as [|[k x] l Hx _ IHl]; [done|].
    cbn in Hall, Hx |- *. apply andb_true_iff in Hall as [Hx' Hl].
    rewrite (IHl Hl), (Hx Hx'). by destruct x.
Qed.

Lemma to_json_is_json (v : value) :
  v <> JUndef -> is_json (Js.to_json v) = true.
Proof.
  induction v as [ | | b | n | s | items IH | fields IH]
    using value_nested_ind; cbn [is_json Js.to_json]; try done; intros _.
  - induction IH as [|x l Hx _ IHl]; [done|]. cbn. rewrite IHl, andb_true_r.
    destruct x; try done; by apply Hx.
  - induction IH as [|[k x] l Hx _ IHl]; [done|]. cbn in Hx |- *.
    destruct x; try done; cbn; rewrite IHl, andb_true_r; try done;
      by apply Hx.
Qed.

Lemma elem_json_is_json (x : value) : is_json (elem_json x) = true.
Proof.
  unfold elem_json. destruct x; try done; by apply to_json_is_json.
Qed.

Lemma elem_json_id (x : value) : is_json x = true -> elem_json x = x.
Proof.
  intros H. unfold elem_json. rewrite (to_json_id x H). by destruct x.
Qed.

Lemma map_elem_json_id (l : list value) :
  forallb is_json l = true -> map elem_json l = l.
Proof.
  induction l as [|x l IH]; cbn; [done|].
  intros [Hx Hl]%andb_true_iff. by rewrite (elem_json_id x Hx), IH.
Qed.

Lemma map_elem_json_is_json (l : list value) :
  forallb is_json (map elem_json l) = true.
Proof.
  induction l as [|x l IH]; cbn; [done|]. by rewrite elem_json_is_json, IH.
Qed.

Lemma json_board_id (b : Board) :
  board_is_json b = true -> json_board b = b.
Proof.
  unfold board_is_json, json_board. intros [Ht Hm]%andb_true_iff.
  rewrite (map_elem_json_id _ Ht), (map_elem_json_id _ Hm). by destruct b.
Qed.

Lemma json_board_is_json (b : Board) : board_is_json (json_board b) = true.
Proof.
  unfold board_is_json, json_board. cbn.
  by rewrite !map_elem_json_is_json.
Qed.

(** ** [readData], [writeData], [initDataFile] *)

Lemma readData_run (w : World) :
  readData w = (Ok (resident w), set_data (Some (resident w)) w).
Proof.
  unfold readData, resident, bind, get_data, try_catch, read_file, put_data.
  destruct w as [[b|] d cl rs ob]; cbn; [done|].
  by destruct (file d).
Qed.

(** X1: [readData] never throws and never touches the file or a socket: it
    answers with the board in memory, else with the board of the file, else
    with the empty board, leaves its answer in [inMemoryData], and a second
    call gives the same answer without changing anything. *)
Theorem readData_settles (w : World) :
  fst (readData w) = Ok (resident w) /\
  inMemoryData (exec readData w) = Some (resident w) /\
  disk (exec readData w) = disk w /\
  outbox (exec readData w) = outbox w /\
  readData (exec readData w) = (Ok (resident w), exec readData w).
Proof.
  unfold exec. rewrite (readData_run w). cbn [fst snd].
  repeat split.
Qed.

Lemma initDataFile_run (w : World) :
  exec initDataFile w
  = match file (disk w) with
    | Some b => set_data (Some b) w
    | None =>
        set_disk (persist empty_board (disk w)) (set_data (Some empty_board) w)
    end.
Proof.
  destruct (file (disk w)) as [b|] eqn:Hfile.
  - by apply initDataFile_with_file.
  - unfold exec, initDataFile, bind, try_catch, read_file. rewrite Hfile.
    cbn. unfold fs_writeFileSync, persist. cbn.
    by destruct (writable (disk w)) eqn:E; cbn; rewrite ?E, ?Hfile.
Qed.

(** X2: what [writeData] stored on a writable file system is what the next
    process starts with: [initDataFile] after a restart loads the JSON form
    of the board that was written, without writing again, and that is the
    very board when it holds JSON values only. *)
Theorem written_board_survives_restart (data : Board) (w : World) :
  writable (disk w) = true ->
  inMemoryData (exec initDataFile (restart (exec (writeData data) w)))
  = Some (json_board data) /\
  write_calls (disk (exec initDataFile (restart (exec (writeData data) w))))
  = S (write_calls (disk w)) /\
  (board_is_json data = true ->
   inMemoryData (exec initDataFile (restart (exec (writeData data) w)))
   = Some data).
Proof.
  intros Hw. unfold exec at 2 4 6. rewrite writeData_run. cbn [snd].
  rewrite initDataFile_run. cbn. rewrite Hw. cbn. repeat split.
  intros Hjson. by rewrite json_board_id.
Qed.

Lemma written_board_survives_restart_witness :
  inMemoryData
    (exec initDataFile
       (restart (exec (writeData Scenario.holed) Scenario.fresh_process)))
  = Some (json_board Scenario.holed) /\
  write_calls
    (disk (exec initDataFile
             (restart (exec (writeData Scenario.holed)
                            Scenario.fresh_process))))
  = S (write_calls (disk Scenario.fresh_process)) /\
  (board_is_json Scenario.holed = true ->
   inMemoryData
     (exec initDataFile
        (restart (exec (writeData Scenario.holed) Scenario.fresh_process)))
   = Some Scenario.holed).
Proof.
  apply (written_board_survives_restart Scenario.holed Scenario.fresh_process).
  reflexivity.
Defined.

(** X3: on a file system that cannot be written the board lives in memory
    only: [writeData] makes it resident all the same, and a restart comes
    back with the board of the old file, or with the empty board when there
    is no file. *)
Theorem unwritten_board_is_lost_on_restart (data : Board) (w : World) :
  writable (disk w) = false ->
  inMemoryData (exec (writeData data) w) = Some data /\
  file (disk (exec (writeData data) w)) = file (disk w) /\
  inMemoryData (exec initDataFile (restart (exec (writeData data) w)))
  = Some (match file (disk w) with
          | Some old => old
          | None => empty_board
          end).
Proof.
  intros Hw. unfold exec at 1 2 4. rewrite writeData_run. cbn [snd].
  rewrite initDataFile_run. cbn. rewrite Hw.
  by destruct (file (disk w)).
Qed.

Lemma unwritten_board_is_lost_on_restart_witness :
  inMemoryData
    (exec (writeData Scenario.board) (Sample.process Sample.board1 false))
  = Some Scenario.board /\
  file (disk (exec (writeData Scenario.board)
                   (Sample.process Sample.board1 false)))
  = file (disk (Sample.process Sample.board1 false)) /\
  inMemoryData
    (exec initDataFile
       (restart (exec (writeData Scenario.board)
                      (Sample.process Sample.board1 false))))
  = Some (match file (disk (Sample.process Sample.board1 false)) with
          | Some old => old
          | None => empty_board
          end).
Proof.
  apply (unwritten_board_is_lost_on_restart Scenario.board
           (Sample.process Sample.board1 false)).
  reflexivity.
Defined.

(** ** The file mirrors the memory *)

Lemma settle_mirrored (ws : nat) (r : Res Outcome) (w : World) :
  mirrored w -> mirrored (settle ws r w).
Proof.
  intros [Hw (b & Hb & Hfile)].
  destruct r as [[b' event|event|]|e]; cbn [settle];
    try (split; [exact Hw|by exists b]).
  split; [exact Hw|]. exists b'. cbn. by rewrite Hw.
Qed.

Lemma on_message_mirrored (ws : nat) (message : Raw) (w : World) :
  mirrored w -> mirrored (exec (on_message ws message) w).
Proof.
  intros Hm. pose proof Hm as [_ (b & Hb & _)].
  unfold exec. rewrite (on_message_run ws message b w Hb). cbn [snd].
  by apply settle_mirrored.
Qed.

Lemma replay_mirrored (queue : list (nat * Raw)) (w : World) :
  mirrored w -> mirrored (exec (replay queue) w).
Proof.
  revert w. induction queue as [|[ws message] queue IH]; intros w Hm.
  - exact Hm.
  - rewrite replay_cons. by apply IH, on_message_mirrored.
Qed.

(** X4: on a writable file system, after [initDataFile] and any run of
    inbound frames (malformed ones included), the file holds exactly the
    JSON text of the board in memory. *)
Theorem file_mirrors_memory (queue : list (nat * Raw)) (w : World) :
  writable (disk w) = true ->
  (forall b0, file (disk w) = Some b0 -> board_is_json b0 = true) ->
  mirrored (exec (replay queue) (exec initDataFile w)).
Proof.
  intros Hw Hfile. apply replay_mirrored. rewrite initDataFile_run.
  destruct (file (disk w)) as [b0|] eqn:Hb0.
  - split; [exact Hw|]. exists b0. cbn. split; [done|].
    by rewrite Hb0, (json_board_id b0 (Hfile b0 eq_refl)).
  - split; [exact Hw|]. exists empty_board. cbn. by rewrite Hw.
Qed.

Lemma file_mirrors_memory_witness :
  mirrored
    (exec (replay [(1, Json (Sample.frame ADD_TASK Sample.t1));
                   (1, NotJson);
                   (2, Json Sample.move_t1_done)])
          (exec initDataFile Scenario.fresh_process)).
Proof.
  apply (file_mirrors_memory _ Scenario.fresh_process).
  - reflexivity.
  - intros b0 H. discriminate H.
Defined.

(** * Further properties of the message callback *)

(** X5: nothing escapes the callback, whatever the frame and whatever the
    state of the process; and a frame that is not JSON changes nothing at
    all, [JSON.parse] failing before [readData] is even called. *)
Theorem malformed_frame_is_dropped (ws : nat) (message : Raw) (w : World) :
  fst (on_message ws message w) = Ok tt /\
  on_message ws NotJson w = (Ok tt, w).
Proof.
  split.
  - by rewrite on_message_returns.
  - reflexivity.
Qed.

Lemma route_lookup_miss (k : Kind) (fld : string) (msg : value) (b : Board) :
  lookup_field k = Some fld ->
  Forall (fun t => same_key "id" msg fld t <> Ok true) (tasks b) ->
  route k msg b = Ok Nothing \/ exists e, route k msg b = Throw e.
Proof.
  intros Hfld Hnone.
  destruct k; try discriminate; injection Hfld as <-; unfold route;
    destruct (findIndex_no_match _ _ Hnone) as [->|[e ->]]; cbn [rbind];
    eauto.
Qed.

(** X6: UPDATE_TASK, MOVE_TASK and ADD_COMMENT look a task up by
    [payload.id] (by [payload.taskId] for ADD_COMMENT); when the comparison
    is true for no resident task the frame changes nothing: no write to the
    board or the file, no frame to any socket. *)
Theorem lookup_miss_is_ignored (k : Kind) (fld : string) (ws : nat)
  (msg : value) (b : Board) (w : World) :
  inMemoryData w = Some b ->
  is_kind k msg ->
  lookup_field k = Some fld ->
  Forall (fun t => same_key "id" msg fld t <> Ok true) (tasks b) ->
  on_message ws (Json msg) w = (Ok tt, w).
Proof.
  intros H Hk Hfld Hnone. rewrite on_message_returns. f_equal.
  rewrite (handle_kind k ws msg b w H Hk).
  by destruct (route_lookup_miss k fld msg b Hfld Hnone) as [->|[e ->]].
Qed.

Lemma lookup_miss_is_ignored_witness :
  on_message 1 (Json (Scenario.comment_on "t7"))
    (Sample.process Scenario.board true)
  = (Ok tt, Sample.process Scenario.board true).
Proof.
  apply (lookup_miss_is_ignored ADD_COMMENT "taskId" 1
           (Scenario.comment_on "t7") Scenario.board).
  - reflexivity.
  - reflexivity.
  - reflexivity.
  - repeat constructor; discriminate.
Defined.

(** X7: when the search by id returns an index, UPDATE_TASK puts the whole
    payload in the place of the task found there (the first whose id is
    [===]); the sequence of ids, the other tasks and [teamMembers] are
    unchanged, and the TASK_UPDATED event goes to every open socket and
    once more to the sender. *)
Theorem update_task_replaces_first_match (ws : nat) (msg : value)
  (b : Board) (w : World) (i : nat) :
  inMemoryData w = Some b ->
  is_kind UPDATE_TASK msg ->
  Js.findIndex (same_key "id" msg "id") (tasks b) = Ok (Some i) ->
  exists b',
    inMemoryData (exec (on_message ws (Json msg)) w) = Some b' /\
    tasks b' = <[i := payload_of msg]> (tasks b) /\
    tasks b' !! i = Some (payload_of msg) /\
    map (field "id") (tasks b') = map (field "id") (tasks b) /\
    teamMembers b' = teamMembers b /\
    outbox (exec (on_message ws (Json msg)) w)
    = outbox w
      ++ fanout w None
           (JSON_stringify (envelope "TASK_UPDATED" (payload_of msg)))
      ++ echo w ws
           (JSON_stringify (envelope "TASK_UPDATED" (payload_of msg))).
Proof.
  intros H Hk Hfind.
  rewrite (handle_kind UPDATE_TASK ws msg b w H Hk). unfold route.
  rewrite Hfind. cbn [rbind]. rewrite (payload_defined _ _ Hk).
  cbn [rbind settle].
  apply findIndex_found in Hfind as (x & Hx & Hsame & _).
  apply same_key_true in Hsame as (_ & _ & Hid & _).
  eexists. split; [reflexivity|]. cbn [tasks teamMembers set_tasks].
  repeat split.
  - apply list_lookup_insert_eq. by apply lookup_lt_Some in Hx.
  - by apply (map_insert_same (field "id") _ i x).
Qed.

Lemma update_task_replaces_first_match_witness :
  exists b',
    inMemoryData
      (exec (on_message 2 (Json (Sample.frame UPDATE_TASK Scenario.renamed)))
            (Sample.process Scenario.board true)) = Some b' /\
    tasks b'
    = <[0 := payload_of (Sample.frame UPDATE_TASK Scenario.renamed)]>
        (tasks Scenario.board) /\
    tasks b' !! 0
    = Some (payload_of (Sample.frame UPDATE_TASK Scenario.renamed)) /\
    map (field "id") (tasks b') = map (field "id") (tasks Scenario.board) /\
    teamMembers b' = teamMembers Scenario.board /\
    outbox
      (exec (on_message 2 (Json (Sample.frame UPDATE_TASK Scenario.renamed)))
            (Sample.process Scenario.board true))
    = outbox (Sample.process Scenario.board true)
      ++ fanout (Sample.process Scenario.board true) None
           (JSON_stringify
              (envelope "TASK_UPDATED"
                 (payload_of (Sample.frame UPDATE_TASK Scenario.renamed))))
      ++ echo (Sample.process Scenario.board true) 2
           (JSON_stringify
              (envelope "TASK_UPDATED"
                 (payload_of (Sample.frame UPDATE_TASK Scenario.renamed)))).
Proof.
  apply (update_task_replaces_first_match 2
           (Sample.frame UPDATE_TASK Scenario.renamed) Scenario.board
           (Sample.process Scenario.board true) 0);
    reflexivity.
Defined.

(** ** ADD_COMMENT *)

Lemma put_keeps_keys (k : string) (v old : value)
  (fs : list (string * value)) :
  Js.own k fs = Some old -> map fst (Js.put k v fs) = map fst fs.
Proof.
  induction fs as [|[k' v'] fs IH]; cbn [Js.own Js.put]; [discriminate|].
  destruct (String.eqb k k') eqn:E; cbn [map fst].
  - apply String.eqb_eq in E as <-. reflexivity.
  - intros H. f_equal. by apply IH.
Qed.

(** X8: when the search by [payload.taskId] returns an index and the task
    there is an object whose [comments] is an array, ADD_COMMENT appends
    [payload.comment] to that array, after the comments already there; the
    other fields of the task, the other tasks and [teamMembers] are
    unchanged, and the COMMENT_ADDED event goes to every open socket and
    once more to the sender. *)
Theorem add_comment_appends (ws : nat) (msg : value) (b : Board) (w : World)
  (i : nat) (fs : list (string * value)) (cs : list value) :
  inMemoryData w = Some b ->
  is_kind ADD_COMMENT msg ->
  Js.findIndex (same_key "id" msg "taskId") (tasks b) = Ok (Some i) ->
  tasks b !! i = Some (JObj fs) ->
  Js.own "comments" fs = Some (JArr cs) ->
  exists b' fs',
    inMemoryData (exec (on_message ws (Json msg)) w) = Some b' /\
    tasks b' = <[i := JObj fs']> (tasks b) /\
    Js.own "comments" fs'
    = Some (JArr (cs ++ [field "comment" (payload_of msg)])) /\
    (forall k, k <> "comments" -> Js.own k fs' = Js.own k fs) /\
    map fst fs' = map fst fs /\
    teamMembers b' = teamMembers b /\
    outbox (exec (on_message ws (Json msg)) w)
    = outbox w
      ++ fanout w None
           (JSON_stringify (envelope "COMMENT_ADDED" (payload_of msg)))
      ++ echo w ws
           (JSON_stringify (envelope "COMMENT_ADDED" (payload_of msg))).
Proof.
  intros H Hk Hfind Hi Hcs.
  rewrite (handle_kind ADD_COMMENT ws msg b w H Hk). unfold route.
  rewrite Hfind. cbn [rbind]. cbv zeta.
  rewrite (index_lookup _ _ _ Hi). cbn [Js.prop]. rewrite Hcs.
  cbn [default rbind]. rewrite (payload_defined _ _ Hk). cbn [rbind].
  apply findIndex_found in Hfind as (x & Hx & Hsame & _).
  apply same_key_true in Hsame as (_ & Hp & _).
  rewrite (prop_defined _ "comment" Hp). cbn [rbind Js.push Js.assign settle].
  eexists _, _. split; [reflexivity|]. cbn [tasks teamMembers set_tasks].
  repeat split.
  - apply own_put_same.
  - intros k Hne. by apply own_put_other.
  - exact (put_keeps_keys "comments" _ _ fs Hcs).
Qed.

Lemma add_comment_appends_witness :
  exists b' fs',
    inMemoryData
      (exec (on_message 1 (Json (Scenario.comment_on "t1")))
            (Sample.process Scenario.board true)) = Some b' /\
    tasks b' = <[0 := JObj fs']> (tasks Scenario.board) /\
    Js.own "comments" fs'
    = Some (JArr ([JStr "first"]
                  ++ [field "comment"
                        (payload_of (Scenario.comment_on "t1"))])) /\
    (forall k, k <> "comments" ->
       Js.own k fs'
       = Js.own k [("id", JStr "t1"); ("status", JStr "todo");
                   ("comments", JArr [JStr "first"])]) /\
    map fst fs'
    = map fst [("id", JStr "t1"); ("status", JStr "todo");
               ("comments", JArr [JStr "first"])] /\
    teamMembers b' = teamMembers Scenario.board /\
    outbox (exec (on_message 1 (Json (Scenario.comment_on "t1")))
                 (Sample.process Scenario.board true))
    = outbox (Sample.process Scenario.board true)
      ++ fanout (Sample.process Scenario.board true) None
           (JSON_stringify
              (envelope "COMMENT_ADDED"
                 (payload_of (Scenario.comment_on "t1"))))
      ++ echo (Sample.process Scenario.board true) 1
           (JSON_stringify
              (envelope "COMMENT_ADDED"
                 (payload_of (Scenario.comment_on "t1")))).
Proof.
  apply (add_comment_appends 1 (Scenario.comment_on "t1") Scenario.board
           (Sample.process Scenario.board true) 0
           [("id", JStr "t1"); ("status", JStr "todo");
            ("comments", JArr [JStr "first"])] [JStr "first"]);
    reflexivity.
Defined.

(** X9: ADD_COMMENT on a task whose [comments] is not an array (missing,
    [null], a string, an object) throws at [comments.push] after the task
    was found; the [catch] drops the frame and nothing changes, no
    COMMENT_ADDED is sent. *)
Theorem add_comment_without_array_is_dropped (ws : nat) (msg : value)
  (b : Board) (w : World) (i : nat) (t : value) :
  inMemoryData w = Some b ->
  is_kind ADD_COMMENT msg ->
  Js.findIndex (same_key "id" msg "taskId") (tasks b) = Ok (Some i) ->
  tasks b !! i = Some t ->
  (forall cs, field "comments" t <> JArr cs) ->
  on_message ws (Json msg) w = (Ok tt, w).
Proof.
  intros H Hk Hfind Hi Hnot. rewrite on_message_returns. f_equal.
  rewrite (handle_kind ADD_COMMENT ws msg b w H Hk). unfold route.
  rewrite Hfind. cbn [rbind]. cbv zeta. rewrite (index_lookup _ _ _ Hi).
  apply findIndex_found in Hfind as (x & Hx & Hsame & _).
  assert (x = t) as -> by congruence.
  apply same_key_true in Hsame as (Ht & Hp & _).
  rewrite (prop_defined t "comments" Ht). cbn [rbind].
  rewrite (payload_defined _ _ Hk). cbn [rbind].
  rewrite (prop_defined _ "comment" Hp). cbn [rbind].
  destruct (field "comments" t) as [ | | | | |cs|] eqn:Hc; try reflexivity.
  by destruct (Hnot cs).
Qed.

Lemma add_comment_without_array_is_dropped_witness :
  on_message 1 (Json (Scenario.comment_on "t9"))
    (Sample.process Scenario.board true)
  = (Ok tt, Sample.process Scenario.board true).
Proof.
  apply (add_comment_without_array_is_dropped 1 (Scenario.comment_on "t9")
           Scenario.board (Sample.process Scenario.board true) 1
           Scenario.bare).
  - reflexivity.
  - reflexivity.
  - reflexivity.
  - reflexivity.
  - intros cs. discriminate.
Defined.

(** ** DELETE_TASK and the tasks it leaves *)

Lemma filter_filter {A} (g : A -> bool) (l : list A) :
  List.filter g (List.filter g l) = List.filter g l.
Proof.
  induction l as [|x l IH]; cbn; [done|].
  destruct (g x) eqn:E; cbn; rewrite ?E, IH; reflexivity.
Qed.

Lemma filter_all {A} (g : A -> bool) (l : list A) :
  forallb g l = true -> List.filter g l = l.
Proof.
  induction l as [|x l IH]; cbn; [done|].
  intros [Hx Hl]%andb_true_iff. by rewrite Hx, IH.
Qed.

Lemma filter_keeps_defined (g : value -> bool) (l : list value) :
  Forall (fun t => nullish t = false) l ->
  Forall (fun t => nullish t = false) (List.filter g l).
Proof.
  induction 1 as [|x l Hx _ IH]; cbn; [constructor|].
  destruct (g x); [by constructor|done].
Qed.

(** A task that survives the filter of DELETE_TASK does not answer to a
    search for the deleted id. *)
Lemma survivor_does_not_match (fld : string) (msg : value) (pid t : value) :
  field fld (payload_of msg) = pid ->
  negb (Js.strict_eq (field "id" t) pid) = true ->
  same_key "id" msg fld t <> Ok true.
Proof.
  intros Hpid Hkeep Hsame.
  apply same_key_true in Hsame as (_ & _ & Hid & Href).
  rewrite Hpid in Hid. rewrite <- Hid, strict_eq_refl, Href in Hkeep.
  discriminate.
Qed.

(** X10: after a DELETE_TASK that went through (payload not [null], no
    [null] entry in [tasks]) a search for the deleted id finds nothing,
    and the same DELETE_TASK once more leaves the same [tasks]. *)
Theorem delete_task_is_idempotent (ws ws' : nat) (msg : value) (b : Board)
  (w : World) :
  inMemoryData w = Some b ->
  is_kind DELETE_TASK msg ->
  nullish (payload_of msg) = false ->
  Forall (fun t => nullish t = false) (tasks b) ->
  exists once twice,
    inMemoryData (exec (on_message ws (Json msg)) w) = Some once /\
    inMemoryData
      (exec (on_message ws' (Json msg)) (exec (on_message ws (Json msg)) w))
    = Some twice /\
    tasks twice = tasks once /\
    Forall (fun t => same_key "id" msg "id" t <> Ok true) (tasks once).
Proof.
  intros H Hk Hp Hall.
  rewrite (handle_kind DELETE_TASK ws msg b w H Hk).
  rewrite (route_delete_task msg b Hk (or_intror (conj Hp Hall))).
  cbn [settle].
  erewrite (handle_kind DELETE_TASK ws' msg _ (committed _ ws _ w) eq_refl Hk).
  rewrite route_delete_task; [|done|right; split; [done|]].
  - cbn [settle]. eexists _, _. split; [reflexivity|]. split; [reflexivity|].
    cbn [tasks set_tasks]. split; [apply filter_filter|].
    apply List.Forall_forall. intros t [_ Hkeep]%filter_In.
    by apply (survivor_does_not_match "id" msg _ t eq_refl).
  - cbn [tasks set_tasks]. by apply filter_keeps_defined.
Qed.

Lemma delete_task_is_idempotent_witness :
  exists once twice,
    inMemoryData
      (exec (on_message 1 (Json (Sample.frame DELETE_TASK Scenario.noted)))
            (Sample.process Scenario.board true)) = Some once /\
    inMemoryData
      (exec (on_message 2 (Json (Sample.frame DELETE_TASK Scenario.noted)))
         (exec (on_message 1 (Json (Sample.frame DELETE_TASK Scenario.noted)))
               (Sample.process Scenario.board true)))
    = Some twice /\
    tasks twice = tasks once /\
    Forall (fun t =>
              same_key "id" (Sample.frame DELETE_TASK Scenario.noted) "id" t
              <> Ok true) (tasks once).
Proof.
  apply (delete_task_is_idempotent 1 2
           (Sample.frame DELETE_TASK Scenario.noted) Scenario.board
           (Sample.process Scenario.board true)).
  - reflexivity.
  - reflexivity.
  - reflexivity.
  - repeat constructor.
Defined.

(** X11: once DELETE_TASK went through, an UPDATE_TASK, MOVE_TASK or
    ADD_COMMENT frame that names the deleted id is ignored: the process is
    left exactly as the DELETE_TASK left it. *)
Theorem deleted_task_is_not_found_again (k : Kind) (fld : string)
  (ws ws' : nat) (del msg : value) (b : Board) (w : World) :
  inMemoryData w = Some b ->
  is_kind DELETE_TASK del ->
  nullish (payload_of del) = false ->
  Forall (fun t => nullish t = false) (tasks b) ->
  is_kind k msg ->
  lookup_field k = Some fld ->
  field fld (payload_of msg) = field "id" (payload_of del) ->
  on_message ws' (Json msg) (exec (on_message ws (Json del)) w)
  = (Ok tt, exec (on_message ws (Json del)) w).
Proof.
  intros H Hdel Hp Hall Hk Hfld Hid.
  rewrite on_message_returns. f_equal.
  rewrite (handle_kind DELETE_TASK ws del b w H Hdel).
  rewrite (route_delete_task del b Hdel (or_intror (conj Hp Hall))).
  cbn [settle].
  erewrite (handle_kind k ws' msg _ (committed _ ws _ w) eq_refl Hk).
  match goal with
  | |- settle _ (route k msg ?b1) _ = _ =>
      destruct (route_lookup_miss k fld msg b1 Hfld) as [->|[e ->]];
        [|reflexivity..]
  end.
  cbn [tasks set_tasks].
  apply List.Forall_forall. intros t [_ Hkeep]%filter_In.
  by apply (survivor_does_not_match fld msg _ t Hid).
Qed.

Lemma deleted_task_is_not_found_again_witness :
  on_message 2 (Json (Scenario.comment_on "t1"))
    (exec (on_message 1 (Json (Sample.frame DELETE_TASK Scenario.noted)))
          (Sample.process Scenario.board true))
  = (Ok tt,
     exec (on_message 1 (Json (Sample.frame DELETE_TASK Scenario.noted)))
          (Sample.process Scenario.board true)).
Proof.
  apply (deleted_task_is_not_found_again ADD_COMMENT "taskId" 1 2
           (Sample.frame DELETE_TASK Scenario.noted)
           (Scenario.comment_on "t1") Scenario.board
           (Sample.process Scenario.board true)).
  - reflexivity.
  - reflexivity.
  - reflexivity.
  - repeat constructor.
  - reflexivity.
  - reflexivity.
  - reflexivity.
Defined.

(** X12: ADD_TASK followed by DELETE_TASK for the id of the added task
    gives back the [tasks] there were before, when that id is a primitive
    value that no resident task carried. *)
Theorem add_then_delete_restores_tasks (ws ws' : nat) (add del : value)
  (b : Board) (w : World) :
  inMemoryData w = Some b ->
  is_kind ADD_TASK add ->
  is_kind DELETE_TASK del ->
  nullish (payload_of add) = false ->
  nullish (payload_of del) = false ->
  Forall (fun t => nullish t = false) (tasks b) ->
  field "id" (payload_of del) = field "id" (payload_of add) ->
  is_reference (field "id" (payload_of add)) = false ->
  fresh "id" (field "id" (payload_of add)) (tasks b) = true ->
  exists b',
    inMemoryData
      (exec (on_message ws' (Json del)) (exec (on_message ws (Json add)) w))
    = Some b' /\
    tasks b' = tasks b /\
    teamMembers b' = teamMembers b.
Proof.
  intros H Hadd Hdel Hp Hq Hall Hid Hprim Hfresh.
  rewrite (handle_kind ADD_TASK ws add b w H Hadd), (route_add_task add b Hadd).
  cbn [settle].
  erewrite (handle_kind DELETE_TASK ws' del _ (committed _ ws _ w) eq_refl Hdel).
  rewrite route_delete_task; [|done|right; split; [done|]].
  - cbn [settle]. eexists. split; [reflexivity|].
    cbn [tasks teamMembers set_tasks]. split; [|reflexivity].
    rewrite List.filter_app, Hid. cbn [List.filter].
    rewrite strict_eq_refl, Hprim. cbn [negb].
    rewrite app_nil_r. by apply filter_all.
  - cbn [tasks set_tasks]. apply Forall_app. split; [done|].
    by repeat constructor.
Qed.

Lemma add_then_delete_restores_tasks_witness :
  exists b',
    inMemoryData
      (exec (on_message 2
               (Json (Sample.frame DELETE_TASK (JObj [("id", JStr "t2")]))))
         (exec (on_message 1 (Json (Sample.frame ADD_TASK Sample.t2)))
               (Sample.process Scenario.board true)))
    = Some b' /\
    tasks b' = tasks Scenario.board /\
    teamMembers b' = teamMembers Scenario.board.
Proof.
  apply (add_then_delete_restores_tasks 1 2
           (Sample.frame ADD_TASK Sample.t2)
           (Sample.frame DELETE_TASK (JObj [("id", JStr "t2")]))
           Scenario.board (Sample.process Scenario.board true));
    try reflexivity.
  repeat constructor.
Defined.

(** ** What one frame can and cannot do *)

Lemma settle_outbox (ws : nat) (r : Res Outcome) (w : World) :
  exists new,
    outbox (settle ws r w) = outbox w ++ new /\
    Forall (fun f => is_open (readyState w (fst f)) = true /\
                     (In (fst f) (clients w) \/ fst f = ws)) new /\
    clients (settle ws r w) = clients w /\
    readyState (settle ws r w) = readyState w.
Proof.
  assert (forall ex text,
    Forall (fun f => is_open (readyState w (fst f)) = true /\
                     (In (fst f) (clients w) \/ fst f = ws))
           (fanout w ex text)) as Hfan.
  { intros ex text. apply List.Forall_forall. intros [c t] Hin.
    unfold fanout in Hin. apply frames_member in Hin as (_ & Hc & Hp).
    apply andb_true_iff in Hp as [_ Hopen]. cbn. auto. }
  destruct r as [[b' event|event|]|e]; cbn [settle].
  - eexists. split; [reflexivity|]. split; [|done].
    apply Forall_app. split; [apply Hfan|]. unfold echo.
    destruct (is_open (readyState w ws)) eqn:E; [|constructor].
    constructor; [|constructor]. cbn. split; [exact E|by right].
  - eexists. split; [reflexivity|]. split; [apply Hfan|done].
  - exists []. by rewrite app_nil_r.
  - exists []. by rewrite app_nil_r.
Qed.

(** X13: whatever the frame, the callback only adds to what was sent, and
    every frame it hands out goes to a socket that is open and that is
    registered in [wss.clients] or is the sender; it never changes the
    registry or the state of a socket. *)
Theorem frames_go_to_open_sockets (ws : nat) (message : Raw) (b : Board)
  (w : World) :
  inMemoryData w = Some b ->
  exists new,
    outbox (exec (on_message ws message) w) = outbox w ++ new /\
    Forall (fun f => is_open (readyState w (fst f)) = true /\
                     (In (fst f) (clients w) \/ fst f = ws)) new /\
    clients (exec (on_message ws message) w) = clients w /\
    readyState (exec (on_message ws message) w) = readyState w.
Proof.
  intros H. unfold exec. rewrite (on_message_run ws message b w H).
  cbn [snd]. apply settle_outbox.
Qed.

Lemma frames_go_to_open_sockets_witness :
  exists new,
    outbox (exec (on_message 3 (Json Sample.move_t1_done))
                 (Sample.process Sample.board1 true))
    = outbox (Sample.process Sample.board1 true) ++ new /\
    Forall (fun f =>
              is_open (readyState (Sample.process Sample.board1 true) (fst f))
              = true /\
              (In (fst f) (clients (Sample.process Sample.board1 true)) \/
               fst f = 3)) new /\
    clients (exec (on_message 3 (Json Sample.move_t1_done))
                  (Sample.process Sample.board1 true))
    = clients (Sample.process Sample.board1 true) /\
    readyState (exec (on_message 3 (Json Sample.move_t1_done))
                     (Sample.process Sample.board1 true))
    = readyState (Sample.process Sample.board1 true).
Proof.
  apply (frames_go_to_open_sockets 3 (Json Sample.move_t1_done)
           Sample.board1 (Sample.process Sample.board1 true)).
  reflexivity.
Defined.

Lemma sublist_shorter {A} (r l : list A) : sublist r l -> length r <= length l.
Proof. induction 1; cbn; lia. Qed.

Lemma route_commit_shape (k : Kind) (msg : value) (b b' : Board)
  (event : value) :
  route k msg b = Ok (Commit b' event) ->
  (k <> UPDATE_TEAM_MEMBER -> teamMembers b' = teamMembers b) /\
  (k = UPDATE_TEAM_MEMBER -> tasks b' = tasks b) /\
  (k <> ADD_TASK -> length (tasks b') <= length (tasks b)) /\
  (k = ADD_TASK -> length (tasks b') = S (length (tasks b))) /\
  length (teamMembers b) <= length (teamMembers b') /\
  length (teamMembers b') <= S (length (teamMembers b)).
Proof.
  destruct k; unfold route; intros Hroute.
  - destruct (Js.prop msg "payload"); [|discriminate]. cbn in Hroute.
    injection Hroute as <- _. cbn. rewrite length_app. cbn.
    repeat split; try done; lia.
  - destruct (Js.findIndex _ _) as [[i|]|e]; try discriminate.
    cbn [rbind] in Hroute.
    destruct (Js.prop msg "payload"); [|discriminate]. cbn in Hroute.
    injection Hroute as <- _. cbn. rewrite length_insert.
    repeat split; try done; lia.
  - destruct (Js.filter _ _) as [kept|e] eqn:Hkept; [|discriminate].
    cbn [rbind] in Hroute.
    destruct (Js.prop msg "payload"); [|discriminate]. cbn in Hroute.
    injection Hroute as <- _. cbn.
    apply filter_sublist, sublist_shorter in Hkept.
    repeat split; try done; lia.
  - destruct (Js.findIndex _ _) as [[i|]|e]; try discriminate.
    cbn [rbind] in Hroute.
    destruct (Js.prop msg "payload") as [p|]; [|discriminate].
    cbn [rbind] in Hroute.
    destruct (Js.prop p "status"); [|discriminate]. cbn [rbind] in Hroute.
    destruct (Js.assign _ _ _); [|discriminate]. cbn in Hroute.
    injection Hroute as <- _. cbn. rewrite length_insert.
    repeat split; try done; lia.
  - destruct (Js.findIndex _ _) as [[i|]|e]; try discriminate.
    cbn [rbind] in Hroute. cbv zeta in Hroute.
    destruct (Js.prop (Js.index _ _) "comments"); [|discriminate].
    cbn [rbind] in Hroute.
    destruct (Js.prop msg "payload") as [p|]; [|discriminate].
    cbn [rbind] in Hroute.
    destruct (Js.prop p "comment"); [|discriminate]. cbn [rbind] in Hroute.
    destruct (Js.push _ _); [|discriminate]. cbn [rbind] in Hroute.
    destruct (Js.assign _ _ _); [|discriminate]. cbn in Hroute.
    injection Hroute as <- _. cbn. rewrite length_insert.
    repeat split; try done; lia.
  - destruct (Js.findIndex _ _) as [[i|]|e]; try discriminate;
      cbn [rbind] in Hroute;
      (destruct (Js.prop msg "payload"); [|discriminate]);
      cbn in Hroute; injection Hroute as <- _; cbn;
      rewrite ?length_insert, ?length_app; cbn;
      repeat split; try done; lia.
  - destruct (Js.prop msg "payload"); discriminate.
Qed.

(** X14: each case writes to its own sequence only, and sequences change
    size one entry at a time: [teamMembers] is written by
    UPDATE_TEAM_MEMBER alone, which leaves [tasks] alone and never removes
    a member; ADD_TASK makes [tasks] one longer, and no other kind makes
    it longer. *)
Theorem cases_keep_to_their_sequence (k : Kind) (ws : nat) (msg : value)
  (b : Board) (w : World) :
  inMemoryData w = Some b ->
  is_kind k msg ->
  exists b',
    inMemoryData (exec (on_message ws (Json msg)) w) = Some b' /\
    (k <> UPDATE_TEAM_MEMBER -> teamMembers b' = teamMembers b) /\
    (k = UPDATE_TEAM_MEMBER \/ k = USER_ACTIVITY -> tasks b' = tasks b) /\
    (k <> ADD_TASK -> length (tasks b') <= length (tasks b)) /\
    (k = ADD_TASK -> length (tasks b') = S (length (tasks b))) /\
    length (teamMembers b) <= length (teamMembers b') /\
    length (teamMembers b') <= S (length (teamMembers b)).
Proof.
  intros H Hk. rewrite (handle_kind k ws msg b w H Hk).
  destruct (route k msg b) as [[b' event|event|]|e] eqn:Hroute; cbn [settle].
  - exists b'. split; [reflexivity|].
    destruct (route_commit_shape k msg b b' event Hroute)
      as (Hteam & Htasks & Hle & Hadd & Hlo & Hhi).
    repeat split; try done.
    intros [->| ->]; [by apply Htasks|].
    unfold route in Hroute. by destruct (Js.prop msg "payload").
  - exists b. split; [exact H|].
    assert (k <> ADD_TASK) as Hne.
    { intros ->. by rewrite (route_add_task msg b Hk) in Hroute. }
    repeat split; try done; lia.
  - exists b. split; [exact H|].
    assert (k <> ADD_TASK) as Hne.
    { intros ->. by rewrite (route_add_task msg b Hk) in Hroute. }
    repeat split; try done; lia.
  - exists b. split; [exact H|].
    assert (k <> ADD_TASK) as Hne.
    { intros ->. by rewrite (route_add_task msg b Hk) in Hroute. }
    repeat split; try done; lia.
Qed.

Lemma cases_keep_to_their_sequence_witness :
  exists b',
    inMemoryData
      (exec (on_message 1 (Json (Sample.frame UPDATE_TEAM_MEMBER Sample.ann)))
            (Sample.process Scenario.board true)) = Some b' /\
    (UPDATE_TEAM_MEMBER <> UPDATE_TEAM_MEMBER ->
     teamMembers b' = teamMembers Scenario.board) /\
    (UPDATE_TEAM_MEMBER = UPDATE_TEAM_MEMBER \/
     UPDATE_TEAM_MEMBER = USER_ACTIVITY ->
     tasks b' = tasks Scenario.board) /\
    (UPDATE_TEAM_MEMBER <> ADD_TASK ->
     length (tasks b') <= length (tasks Scenario.board)) /\
    (UPDATE_TEAM_MEMBER = ADD_TASK ->
     length (tasks b') = S (length (tasks Scenario.board))) /\
    length (teamMembers Scenario.board) <= length (teamMembers b') /\
    length (teamMembers b') <= S (length (teamMembers Scenario.board)).
Proof.
  apply (cases_keep_to_their_sequence UPDATE_TEAM_MEMBER 1
           (Sample.frame UPDATE_TEAM_MEMBER Sample.ann) Scenario.board
           (Sample.process Scenario.board true));
    reflexivity.
Defined.

(** X15: a frame calls [fs.writeFileSync] at most once, and whenever it
    leaves a board in memory that differs from the one before, it has
    called it: no change of the board goes without an attempt to save it. *)
Theorem board_change_is_written (ws : nat) (message : Raw) (b : Board)
  (w : World) :
  inMemoryData w = Some b ->
  write_calls (disk (exec (on_message ws message) w))
  <= S (write_calls (disk w)) /\
  (inMemoryData (exec (on_message ws message) w) <> Some b ->
   write_calls (disk (exec (on_message ws message) w))
   = S (write_calls (disk w))) /\
  (write_calls (disk (exec (on_message ws message) w))
   = write_calls (disk w) ->
   disk (exec (on_message ws message) w) = disk w /\
   inMemoryData (exec (on_message ws message) w) = Some b).
Proof.
  intros H. unfold exec. rewrite (on_message_run ws message b w H).
  cbn [snd].
  destruct (interpret message b) as [[b' event|event|]|e]; cbn [settle];
    cbn; repeat split; try done; try lia.
Qed.

Lemma board_change_is_written_witness :
  write_calls
    (disk (exec (on_message 1 (Json Sample.move_t1_done))
                (Sample.process Sample.board1 false)))
  <= S (write_calls (disk (Sample.process Sample.board1 false))) /\
  (inMemoryData
     (exec (on_message 1 (Json Sample.move_t1_done))
           (Sample.process Sample.board1 false)) <> Some Sample.board1 ->
   write_calls
     (disk (exec (on_message 1 (Json Sample.move_t1_done))
                 (Sample.process Sample.board1 false)))
   = S (write_calls (disk (Sample.process Sample.board1 false)))) /\
  (write_calls
     (disk (exec (on_message 1 (Json Sample.move_t1_done))
                 (Sample.process Sample.board1 false)))
   = write_calls (disk (Sample.process Sample.board1 false)) ->
   disk (exec (on_message 1 (Json Sample.move_t1_done))
              (Sample.process Sample.board1 false))
   = disk (Sample.process Sample.board1 false) /\
   inMemoryData
     (exec (on_message 1 (Json Sample.move_t1_done))
           (Sample.process Sample.board1 false)) = Some Sample.board1).
Proof.
  apply (board_change_is_written 1 (Json Sample.move_t1_done) Sample.board1
           (Sample.process Sample.board1 false)).
  reflexivity.
Defined.

(** ** [broadcast] and the connection callback *)

(** X16: [broadcast] hands the text of the message exactly once to every
    socket of [wss.clients] (a set) that is open and is not the excluded
    one, hands nothing to any other socket, and changes nothing else in the
    process. *)
Theorem broadcast_serves_each_open_socket_once (message : value)
  (ex : option nat) (w : World) :
  NoDup (clients w) ->
  exists new,
    broadcast message ex w = (Ok tt, set_outbox (outbox w ++ new) w) /\
    forall c,
      frames_to c new
      = if bool_decide (c ∈ clients w) && differs c ex
           && is_open (readyState w c)
        then [JSON_stringify message]
        else [].
Proof.
  intros Hnd. exists (fanout w ex (JSON_stringify message)).
  split; [apply broadcast_run|]. intros c. unfold fanout.
  destruct (bool_decide (c ∈ clients w)) eqn:Hin; cbn [andb].
  - apply bool_decide_eq_true in Hin.
    destruct (differs c ex && is_open (readyState w c)) eqn:Hp.
    + by apply frames_to_served.
    + apply frames_to_skipped. by right.
  - apply bool_decide_eq_false in Hin. apply frames_to_skipped. by left.
Qed.

Lemma broadcast_serves_each_open_socket_once_witness :
  exists new,
    broadcast (envelope "USER_ACTIVITY" (JStr "typing")) (Some 2)
      (Sample.process Sample.board1 true)
    = (Ok tt,
       set_outbox (outbox (Sample.process Sample.board1 true) ++ new)
         (Sample.process Sample.board1 true)) /\
    forall c,
      frames_to c new
      = if bool_decide (c ∈ clients (Sample.process Sample.board1 true))
           && differs c (Some 2)
           && is_open (readyState (Sample.process Sample.board1 true) c)
        then [JSON_stringify (envelope "USER_ACTIVITY" (JStr "typing"))]
        else [].
Proof.
  apply (broadcast_serves_each_open_socket_once
           (envelope "USER_ACTIVITY" (JStr "typing")) (Some 2)
           (Sample.process Sample.board1 true)).
  apply (bool_decide_unpack _). vm_compute. reflexivity.
Defined.

Lemma connect_world (c : nat) (w : World) :
  exec (connect c) w
  = {| inMemoryData := Some (resident w);
       disk := disk w;
       clients := clients w ++ [c];
       readyState := fun c0 => if Nat.eqb c0 c then OPEN else readyState w c0;
       outbox :=
         outbox w
         ++ [(c, JSON_stringify (envelope "INIT" (board_value (resident w))))]
    |}.
Proof.
  unfold exec, connect, wss_accept, on_connection. unfold bind at 1.
  rewrite (bind_run _ _ _ _ _ (readData_run _)).
  unfold ws_send. cbn [readyState set_data]. rewrite Nat.eqb_refl.
  reflexivity.
Qed.

(** X17: a socket that connects is registered, is sent one frame, INIT
    with the JSON form of the board [readData] answers with (the board in
    memory, else the board of the file, else the empty board), and that
    board is resident afterwards; no other socket is sent anything and the
    file is not written. *)
Theorem connect_sends_one_init (c : nat) (w : World) :
  outbox (exec (connect c) w)
  = outbox w
    ++ [(c, envelope "INIT" (board_value (json_board (resident w))))] /\
  inMemoryData (exec (connect c) w) = Some (resident w) /\
  disk (exec (connect c) w) = disk w /\
  clients (exec (connect c) w) = clients w ++ [c] /\
  readyState (exec (connect c) w) c = OPEN /\
  (forall c', c' <> c ->
     readyState (exec (connect c) w) c' = readyState w c').
Proof.
  rewrite connect_world. cbn [outbox inMemoryData disk clients readyState].
  rewrite init_snapshot, Nat.eqb_refl. repeat split.
  intros c' Hne. apply Nat.eqb_neq in Hne. by rewrite Hne.
Qed.

(** ** The event of UPDATE_TEAM_MEMBER *)

(** X18: when the search by name does not throw, UPDATE_TEAM_MEMBER leaves
    the payload among the members and sends, to every open socket and once
    more to the sender, a TEAM_UPDATED event that carries the whole
    sequence of members as it is after the update. *)
Theorem team_updated_carries_all_members (ws : nat) (msg : value)
  (b : Board) (w : World) (found : option nat) :
  inMemoryData w = Some b ->
  is_kind UPDATE_TEAM_MEMBER msg ->
  Js.findIndex (same_key "name" msg "name") (teamMembers b) = Ok found ->
  exists b',
    inMemoryData (exec (on_message ws (Json msg)) w) = Some b' /\
    In (payload_of msg) (teamMembers b') /\
    outbox (exec (on_message ws (Json msg)) w)
    = outbox w
      ++ fanout w None
           (JSON_stringify (envelope "TEAM_UPDATED" (JArr (teamMembers b'))))
      ++ echo w ws
           (JSON_stringify (envelope "TEAM_UPDATED" (JArr (teamMembers b')))).
Proof.
  intros H Hk Hfind.
  rewrite (handle_kind UPDATE_TEAM_MEMBER ws msg b w H Hk).
  rewrite (route_team_member msg Hk b), Hfind. cbn [rbind]. cbv zeta.
  cbn [settle]. eexists. split; [reflexivity|].
  cbn [teamMembers set_teamMembers]. split; [|reflexivity].
  destruct found as [i|].
  - apply findIndex_found in Hfind as (x & Hx & _).
    apply list_elem_of_In, list_elem_of_lookup. exists i.
    apply list_lookup_insert_eq. by apply lookup_lt_Some in Hx.
  - apply in_or_app. right. by left.
Qed.

Lemma team_updated_carries_all_members_witness :
  exists b',
    inMemoryData
      (exec (on_message 1 (Json (Sample.frame UPDATE_TEAM_MEMBER Sample.bob)))
            (Sample.process Scenario.board true)) = Some b' /\
    In (payload_of (Sample.frame UPDATE_TEAM_MEMBER Sample.bob))
       (teamMembers b') /\
    outbox
      (exec (on_message 1 (Json (Sample.frame UPDATE_TEAM_MEMBER Sample.bob)))
            (Sample.process Scenario.board true))
    = outbox (Sample.process Scenario.board true)
      ++ fanout (Sample.process Scenario.board true) None
           (JSON_stringify (envelope "TEAM_UPDATED" (JArr (teamMembers b'))))
      ++ echo (Sample.process Scenario.board true) 1
           (JSON_stringify (envelope "TEAM_UPDATED" (JArr (teamMembers b')))).
Proof.
  apply (team_updated_carries_all_members 1
           (Sample.frame UPDATE_TEAM_MEMBER Sample.bob) Scenario.board
           (Sample.process Scenario.board true) (Some 0));
    reflexivity.
Defined.

(** ** Payloads that are missing or [null] *)

(** X19: an ADD_TASK frame without [payload] pushes [undefined]: the entry
    reads [null] in the file, and the TASK_ADDED event that goes out has a
    [type] and no [payload]. *)
Theorem add_task_without_payload_stores_null (ws : nat) (msg : value)
  (b : Board) (w : World) :
  inMemoryData w = Some b ->
  is_kind ADD_TASK msg ->
  payload_of msg = JUndef ->
  writable (disk w) = true ->
  exists b',
    inMemoryData (exec (on_message ws (Json msg)) w) = Some b' /\
    tasks b' = tasks b ++ [JUndef] /\
    option_map tasks (file (disk (exec (on_message ws (Json msg)) w)))
    = Some (map elem_json (tasks b) ++ [JNull]) /\
    outbox (exec (on_message ws (Json msg)) w)
    = outbox w
      ++ fanout w None (JObj [("type", JStr "TASK_ADDED")])
      ++ echo w ws (JObj [("type", JStr "TASK_ADDED")]).
Proof.
  intros H Hk Hp Hw.
  rewrite (handle_kind ADD_TASK ws msg b w H Hk), (route_add_task msg b Hk).
  rewrite Hp. cbn [settle]. eexists. split; [reflexivity|].
  cbn. rewrite Hw. cbn. by rewrite map_app.
Qed.

Lemma add_task_without_payload_stores_null_witness :
  exists b',
    inMemoryData
      (exec (on_message 1 (Json (JObj [("type", JStr "ADD_TASK")])))
            (Sample.process Sample.board1 true)) = Some b' /\
    tasks b' = tasks Sample.board1 ++ [JUndef] /\
    option_map tasks
      (file (disk (exec (on_message 1
                           (Json (JObj [("type", JStr "ADD_TASK")])))
                        (Sample.process Sample.board1 true))))
    = Some (map elem_json (tasks Sample.board1) ++ [JNull]) /\
    outbox (exec (on_message 1 (Json (JObj [("type", JStr "ADD_TASK")])))
                 (Sample.process Sample.board1 true))
    = outbox (Sample.process Sample.board1 true)
      ++ fanout (Sample.process Sample.board1 true) None
           (JObj [("type", JStr "TASK_ADDED")])
      ++ echo (Sample.process Sample.board1 true) 1
           (JObj [("type", JStr "TASK_ADDED")]).
Proof.
  apply (add_task_without_payload_stores_null 1
           (JObj [("type", JStr "ADD_TASK")]) Sample.board1
           (Sample.process Sample.board1 true));
    reflexivity.
Defined.

Lemma same_key_on_null (key fld : string) (msg t : value) :
  nullish t = true -> same_key key msg fld t = Throw TypeError.
Proof. by destruct t. Qed.

(** X20: a [null] (or [undefined]) entry at the head of [tasks], as an
    ADD_TASK frame with such a payload leaves on an empty board, makes every
    later UPDATE_TASK, DELETE_TASK, MOVE_TASK and ADD_COMMENT frame throw
    at [t.id]: the frame is dropped and changes nothing, whatever id it
    names. *)
Theorem null_task_blocks_lookups (k : Kind) (ws : nat) (msg : value)
  (b : Board) (w : World) (t0 : value) (rest : list value) :
  inMemoryData w = Some b ->
  is_kind k msg ->
  k = UPDATE_TASK \/ k = DELETE_TASK \/ k = MOVE_TASK \/ k = ADD_COMMENT ->
  tasks b = t0 :: rest ->
  nullish t0 = true ->
  on_message ws (Json msg) w = (Ok tt, w).
Proof.
  intros H Hk Hkinds Htasks Hnull. rewrite on_message_returns. f_equal.
  rewrite (handle_kind k ws msg b w H Hk).
  destruct Hkinds as [-> | [-> | [-> | ->]]]; unfold route; rewrite Htasks;
    cbn [Js.findIndex Js.filter]; unfold other_key;
    by rewrite same_key_on_null.
Qed.

Lemma null_task_blocks_lookups_witness :
  on_message 2 (Json Sample.move_t1_done)
    (Sample.process Sample.board_null true)
  = (Ok tt, Sample.process Sample.board_null true).
Proof.
  apply (null_task_blocks_lookups MOVE_TASK 2 Sample.move_t1_done
           Sample.board_null (Sample.process Sample.board_null true)
           JNull [Sample.t1]).
  - reflexivity.
  - reflexivity.
  - right. right. by left.
  - reflexivity.
  - reflexivity.
Defined.

(** ** Names of team members *)

Lemma interpret_commit (message : Raw) (b b' : Board) (event : value) :
  interpret message b = Ok (Commit b' event) ->
  exists k msg,
    message = Json msg /\ is_kind k msg /\
    route k msg b = Ok (Commit b' event).
Proof.
  destruct message as [|msg]; [discriminate|]. unfold interpret.
  cbn [JSON_parse rbind].
  destruct (Js.prop msg "type") as [tag|e] eqn:Htag; [|discriminate].
  cbn [rbind]. destruct (switch tag) as [k|] eqn:Hk; [|discriminate].
  intros Hroute. exists k, msg. repeat split; [|done].
  apply switch_some in Hk as ->. exact Htag.
Qed.

Lemma on_message_keeps_distinct_names (ws : nat) (message : Raw) (b : Board)
  (w : World) :
  inMemoryData w = Some b ->
  distinct_names (teamMembers b) = true ->
  exists b',
    inMemoryData (exec (on_message ws message) w) = Some b' /\
    distinct_names (teamMembers b') = true.
Proof.
  intros H Hb. unfold exec. rewrite (on_message_run ws message b w H).
  cbn [snd].
  destruct (interpret message b) as [[b' event|event|]|e] eqn:Hi;
    cbn [settle]; try (by exists b).
  exists b'. split; [reflexivity|].
  apply interpret_commit in Hi as (k & msg & _ & Hk & Hroute).
  destruct (route_commit_shape k msg b b' event Hroute) as (Hteam & _).
  destruct k;
    try (rewrite Hteam by discriminate; exact Hb).
  exact (upsert_keeps_distinct_names msg Hk b b' event Hroute Hb).
Qed.

(** X21: names of team members that are pairwise distinct (no two [===])
    stay pairwise distinct through any run of inbound frames, of any kind
    and with any payload, malformed frames included. *)
Theorem member_names_stay_distinct (queue : list (nat * Raw)) (b : Board)
  (w : World) :
  inMemoryData w = Some b ->
  distinct_names (teamMembers b) = true ->
  exists b',
    inMemoryData (exec (replay queue) w) = Some b' /\
    distinct_names (teamMembers b') = true.
Proof.
  revert b w. induction queue as [|[ws message] queue IH]; intros b w H Hb.
  - by exists b.
  - rewrite replay_cons.
    destruct (on_message_keeps_distinct_names ws message b w H Hb)
      as (b1 & H1 & Hb1).
    exact (IH b1 _ H1 Hb1).
Qed.

Lemma member_names_stay_distinct_witness :
  exists b',
    inMemoryData
      (exec (replay
               [(1, Json (Sample.frame UPDATE_TEAM_MEMBER Sample.bob));
                (2, NotJson);
                (2, Json (Sample.frame UPDATE_TEAM_MEMBER Sample.ann));
                (1, Json (Sample.frame ADD_TASK Sample.t2))])
            (Sample.process Scenario.board true)) = Some b' /\
    distinct_names (teamMembers b') = true.
Proof.
  apply (member_names_stay_distinct _ Scenario.board
           (Sample.process Scenario.board true));
    reflexivity.
Defined.
